(** * tailmon: the state reconciliation core of the Tailscale device monitor

    A shallow embedding of [main.py]: the liveness classifier
    ([is_device_online]), the loop that builds the current state map
    (in [check_devices] and [send_initial_status]), the change detection of
    [check_devices] and the body of the initial status report.

    Modelling decisions.
    - A raw device is the JSON object delivered by the inventory API, a
      Python [dict] read only through [.get] and [device['id']]: a finite
      map from field names to values.  Field values are modelled at the type
      the API delivers them and the code uses them at: strings.
    - A Python [str] is a Rocq [string] holding its UTF-8 bytes; byte-wise
      lexicographic order on UTF-8 is the code-point order Python's [sorted]
      uses on [str].
    - The state map ([current_devices], [previous_state]) is a Python dict
      whose iteration order is observable: an association list in insertion
      order.  Assigning to a key that is present keeps its position.
    - A [datetime] with an offset is an instant and a [timedelta] a
      duration, both exact integers of microseconds; the constructor
      [timedelta(seconds=...)] keeps its range check.
      [datetime.fromisoformat] belongs to the Python library and is a field
      of the environment, as are the two configuration constants and the
      system clock.
    - [print] and the DEBUG output are not modelled.
    - The state file is what [load_previous_state] finds: nothing, something
      unreadable, or a stored map; the driver is followed through a finite
      number of passes of its loop, each with the payload it fetches.  The
      HTTP request and the delivery of a notification by Apprise are outside
      the model: a notification is the pair handed to [send_notification]. *)

From Stdlib Require Import ZArith String Ascii List Bool Lia.
From stdpp Require Import gmap strings list sorting pretty.

Open Scope string_scope.
Open Scope Z_scope.

(** ** Exceptions and results *)

Inductive exn : Type :=
  | KeyError (key : string)
  | ValueError
  | TypeError
  | OverflowError.

Inductive result (A : Type) : Type :=
  | Return (a : A)
  | Raise (e : exn).
Arguments Return {A} a.
Arguments Raise {A} e.

(** ** Time *)

(** The value of [datetime.fromisoformat]: a datetime carrying a UTC offset
    denotes an instant (microseconds since the epoch); one without an offset
    is naive. *)
Inductive datetime : Type :=
  | Aware (instant : Z)
  | Naive (wall : Z).

(** [now - last_seen_time] with [now] aware: subtracting a naive datetime
    from an aware one raises [TypeError]. *)
Definition datetime_sub (now : Z) (last_seen_time : datetime) : result Z :=
  match last_seen_time with
  | Aware t => Return (now - t)
  | Naive _ => Raise TypeError
  end.

(** [timedelta(seconds=s)] for an [int], in microseconds.  The constructor
    splits [s] into days and seconds of a day ([divmod(s, 86400)]) and
    raises [OverflowError] when the days exceed 999999999 in magnitude. *)
Definition timedelta (seconds : Z) : result Z :=
  if bool_decide (-999999999 <= seconds / 86400 <= 999999999)
  then Return (seconds * 1000000)
  else Raise OverflowError.

(** ** The environment of the process *)

Class Environment : Type := {
  (** [datetime.fromisoformat]; [None] is its [ValueError]. *)
  fromisoformat : string -> option datetime;
  (** [int(os.getenv('ONLINE_THRESHOLD_SECONDS', '60'))] *)
  ONLINE_THRESHOLD_SECONDS : Z;
  (** [int(os.getenv('CHECK_INTERVAL', '60'))] *)
  CHECK_INTERVAL : Z;
  (** The reading of [datetime.now(timezone.utc)] made by the n-th call of
      the classifier since the start of the enclosing function. *)
  clock : nat -> Z
}.

(** ** Strings *)

(** [s.replace(c, by)] for a one-character pattern. *)
Fixpoint replace (c : ascii) (by_ : string) (s : string) : string :=
  match s with
  | EmptyString => EmptyString
  | String a rest =>
      if Ascii.eqb a c then by_ +:+ replace c by_ rest
      else String a (replace c by_ rest)
  end.

(** The one-character string of a line feed. *)
Definition newline : string := String (ascii_of_nat 10) EmptyString.

(** [sep.join(parts)] *)
Fixpoint join (sep : string) (parts : list string) : string :=
  match parts with
  | [] => ""
  | [p] => p
  | p :: rest => p +:+ sep +:+ join sep rest
  end.

(** Truth value of a [str]: only the empty string is falsy. *)
Definition truthy (s : string) : bool :=
  match s with EmptyString => false | String _ _ => true end.

(** [x or y] where [x] is the result of a [.get] (absent is [None]). *)
Definition py_or (x : option string) (y : string) : string :=
  match x with
  | Some s => if truthy s then s else y
  | None => y
  end.

(** ** Python dicts in insertion order *)

Module PyDict.
Definition t (V : Type) : Type := list (string * V).

(** [d.get(k)] *)
Fixpoint get {V} (k : string) (d : t V) : option V :=
  match d with
  | [] => None
  | (k', v) :: rest => if decide (k' = k) then Some v else get k rest
  end.

(** [k in d] *)
Definition mem {V} (k : string) (d : t V) : bool :=
  match get k d with Some _ => true | None => false end.

(** [d[k] = v]: a present key keeps its place, a new one goes last. *)
Fixpoint set {V} (k : string) (v : V) (d : t V) : t V :=
  match d with
  | [] => [(k, v)]
  | (k', v') :: rest =>
      if decide (k' = k) then (k', v) :: rest else (k', v') :: set k v rest
  end.

(** [list(d)], the keys in iteration order. *)
Definition keys {V} (d : t V) : list string := d.*1.

(** What makes an association list a dict: no key twice. *)
Definition wf {V} (d : t V) : Prop := NoDup (keys d).
End PyDict.

(** ** Data model *)

(** A raw device record of the inventory payload. *)
Abbreviation raw_device := (gmap string string).

(** A value of the state map:
    [{'name': ..., 'online': ..., 'lastSeen': ...}]. *)
Record entry : Type := Entry {
  name : string;
  online : bool;
  lastSeen : string
}.

Abbreviation snapshot := (PyDict.t entry).

(** The ['status'] and ['type'] strings of a change. *)
Inductive status_t : Type := online_ | offline_ | removed_.
Inductive type_t : Type := new | changed | removed.

(** An element of [changes]:
    [{'device': ..., 'status': ..., 'type': ...}]. *)
Record change : Type := Change {
  device : string;
  status : status_t;
  type : type_t
}.

(** ['online' if device['online'] else 'offline'] *)
Definition status_of (is_online : bool) : status_t :=
  if is_online then online_ else offline_.

(** ** [is_device_online] *)

Section Classifier.
Context `{Environment}.

(** The body of the [try] block, for a truthy [last_seen]. *)
Definition is_device_online_try (now : Z) (last_seen : string) : result bool :=
  match fromisoformat (replace "Z" "+00:00" last_seen) with
  | None => Raise ValueError
  | Some last_seen_time =>
      match datetime_sub now last_seen_time with
      | Raise e => Raise e
      | Return time_diff =>
          match timedelta ONLINE_THRESHOLD_SECONDS with
          | Raise e => Raise e
          | Return threshold => Return (bool_decide (time_diff < threshold))
          end
      end
  end.

(** [is_device_online(device)], where [now] is the clock reading the call
    makes.  [except Exception] turns every exception of the [try] block
    into [False]. *)
Definition is_device_online (now : Z) (dev : raw_device) : bool :=
  match dev !! "lastSeen" with
  | None => false
  | Some last_seen =>
      if negb (truthy last_seen) then false
      else
        match is_device_online_try now last_seen with
        | Return is_online => is_online
        | Raise _ => false
        end
  end.
End Classifier.

(** ** Building the state map *)

Section Builder.
Context `{Environment}.

(** [device.get('name') or device.get('hostname', 'Unknown')] *)
Definition device_name (dev : raw_device) : string :=
  py_or (dev !! "name") (default "Unknown" (dev !! "hostname")).

(** The dict literal stored under the device id. *)
Definition device_entry (now : Z) (dev : raw_device) : entry :=
  {| name := device_name dev;
     online := is_device_online now dev;
     lastSeen := default "" (dev !! "lastSeen") |}.

(** The loop [for device in data.get('devices', [])] of [check_devices]
    and of the second half of [send_initial_status].  [device['id']] raises
    [KeyError] on a record without the field; nothing in the loop catches
    it.  [tick] counts the classifier calls made so far. *)
Fixpoint build_current_devices (devices : list raw_device) (tick : nat)
    (current_devices : snapshot) : result snapshot :=
  match devices with
  | [] => Return current_devices
  | dev :: rest =>
      match dev !! "id" with
      | None => Raise (KeyError "id")
      | Some device_id =>
          build_current_devices rest (S tick)
            (PyDict.set device_id (device_entry (clock tick) dev) current_devices)
      end
  end.
End Builder.

(** ** Detecting changes *)

(** Body of [for device_id, device in current_devices.items()].  An entry is
    a dict with three keys, hence truthy: [not prev] holds exactly when
    [previous_state.get(device_id)] is [None]. *)
Definition report_current (previous_state : snapshot) (changes : list change)
    (item : string * entry) : list change :=
  let '(device_id, dev) := item in
  match PyDict.get device_id previous_state with
  | None =>
      changes ++ [ {| device := name dev; status := status_of (online dev); type := new |} ]
  | Some prev =>
      if xorb (online prev) (online dev)
      then changes ++ [ {| device := name dev; status := status_of (online dev); type := changed |} ]
      else changes
  end.

(** Body of [for device_id, device in previous_state.items()]. *)
Definition report_removed (current_devices : snapshot) (changes : list change)
    (item : string * entry) : list change :=
  let '(device_id, dev) := item in
  if PyDict.mem device_id current_devices then changes
  else changes ++ [ {| device := name dev; status := removed_; type := removed |} ].

(** The value of [changes] after the two loops of [check_devices]. *)
Definition detect_changes (current_devices previous_state : snapshot) : list change :=
  fold_left (report_removed current_devices) previous_state
    (fold_left (report_current previous_state) current_devices []).

(** The same two loops with a ghost annotation: every appended change is
    paired with the [device_id] of the iteration that appended it.  The
    program's changes carry no id, only the display name. *)
Definition report_current_traced (previous_state : snapshot)
    (changes : list (string * change)) (item : string * entry) : list (string * change) :=
  let '(device_id, dev) := item in
  match PyDict.get device_id previous_state with
  | None =>
      changes ++ [ (device_id, {| device := name dev; status := status_of (online dev); type := new |}) ]
  | Some prev =>
      if xorb (online prev) (online dev)
      then changes ++ [ (device_id, {| device := name dev; status := status_of (online dev); type := changed |}) ]
      else changes
  end.

Definition report_removed_traced (current_devices : snapshot)
    (changes : list (string * change)) (item : string * entry) : list (string * change) :=
  let '(device_id, dev) := item in
  if PyDict.mem device_id current_devices then changes
  else changes ++ [ (device_id, {| device := name dev; status := removed_; type := removed |}) ].

Definition detect_changes_traced (current_devices previous_state : snapshot)
    : list (string * change) :=
  fold_left (report_removed_traced current_devices) previous_state
    (fold_left (report_current_traced previous_state) current_devices []).

(** The changes the ghost trace attributes to [device_id]. *)
Definition changes_of (device_id : string) (trace : list (string * change)) : list change :=
  (filter (fun p => p.1 = device_id) trace).*2.

(** ** [check_devices] *)

Section CheckDevices.
Context `{Environment}.

(** [data] is [None] when the fetch failed or returned an empty object
    ([if not data: return]); otherwise it holds [data.get('devices', [])].
    The result is the list of changes, one notification each, and the state
    handed to [save_current_state]; [previous_state] is the value of
    [load_previous_state()]. *)
Definition check_devices (data : option (list raw_device)) (previous_state : snapshot)
    : result (option (list change * snapshot)) :=
  match data with
  | None => Return None
  | Some devices =>
      match build_current_devices devices 0 [] with
      | Raise e => Raise e
      | Return current_devices =>
          Return (Some (detect_changes current_devices previous_state, current_devices))
      end
  end.
End CheckDevices.

(** ** [send_initial_status] *)

(** The order of [str]: lexicographic on code points. *)
Definition str_le (s1 s2 : string) : Prop := String.leb s1 s2 = true.

#[global] Instance str_le_dec : RelDecision str_le.
Proof. intros s1 s2. unfold str_le. apply _. Defined.

(** [sorted(names)] on a list of [str]. *)
Definition sorted (names : list string) : list string := merge_sort str_le names.

(** The lines appended under a heading: one bullet per name in sorted order,
    or the placeholder when the list is empty. *)
Definition device_lines (devices : list string) : list string :=
  match devices with
  | [] => ["  (none)"]
  | _ :: _ => (fun dev => "  • " +:+ dev) <$> sorted devices
  end.

Section InitialStatus.
Context `{Environment}.

(** The first loop: every record's display name goes to one of the two
    lists, in payload order. *)
Fixpoint partition_devices (devices : list raw_device) (tick : nat)
    (online_devices offline_devices : list string) : list string * list string :=
  match devices with
  | [] => (online_devices, offline_devices)
  | dev :: rest =>
      if is_device_online (clock tick) dev
      then partition_devices rest (S tick) (online_devices ++ [device_name dev]) offline_devices
      else partition_devices rest (S tick) online_devices (offline_devices ++ [device_name dev])
  end.

(** [body_parts] once it is complete. *)
Definition body_parts (online_devices offline_devices : list string) : list string :=
  let total_devices := (length online_devices + length offline_devices)%nat in
  [ "Total Devices: " +:+ pretty total_devices;
    "";
    "🟢 Online (" +:+ pretty (length online_devices) +:+ "):" ]
  ++ device_lines online_devices
  ++ [ ""; "🔴 Offline (" +:+ pretty (length offline_devices) +:+ "):" ]
  ++ device_lines offline_devices
  ++ [ "";
       "🔍 Now monitoring for changes (checking every " +:+ pretty CHECK_INTERVAL +:+ "s)..." ].

(** The notification sent by [send_initial_status]: title and body. *)
Definition status_report (devices : list raw_device) : string * list string :=
  let '(online_devices, offline_devices) := partition_devices devices 0 [] [] in
  ("📊 Tailscale Initial Status Report", body_parts online_devices offline_devices).

(** [send_initial_status()]: nothing when the fetch gave no data; otherwise
    the report that is sent (title, [body_parts], and the body joined with
    newlines) and then the outcome of building the state that is saved.
    The second loop classifies every device again, at later clock
    readings. *)
Definition send_initial_status (data : option (list raw_device))
    : option (string * list string * string * result snapshot) :=
  match data with
  | None => None
  | Some devices =>
      let '(title, parts) := status_report devices in
      Some (title, parts, join newline parts,
            build_current_devices devices (length devices) [])
  end.
End InitialStatus.

(** ** The notifications of [check_devices] *)

(** The string of a ['status']. *)
Definition status_str (s : status_t) : string :=
  match s with
  | online_ => "online"
  | offline_ => "offline"
  | removed_ => "removed"
  end.

Definition is_lower (a : ascii) : bool :=
  let n := nat_of_ascii a in (97 <=? n)%nat && (n <=? 122)%nat.

Definition is_upper (a : ascii) : bool :=
  let n := nat_of_ascii a in (65 <=? n)%nat && (n <=? 90)%nat.

(** [s.title()] on ASCII text, which is all the program applies it to: a
    letter that follows a letter is lowered, any other letter is raised,
    everything else is kept. *)
Fixpoint title_from (after_letter : bool) (s : string) : string :=
  match s with
  | EmptyString => EmptyString
  | String a rest =>
      if is_lower a then
        String (if after_letter then a else ascii_of_nat (nat_of_ascii a - 32)) (title_from true rest)
      else if is_upper a then
        String (if after_letter then ascii_of_nat (nat_of_ascii a + 32) else a) (title_from true rest)
      else String a (title_from false rest)
  end.

Definition str_title (s : string) : string := title_from false s.

(** The title and body computed for one element of [changes] in the last
    loop of [check_devices]. *)
Definition change_notification (c : change) : string * string :=
  match type c with
  | new =>
      ("🆕 New Tailscale Device", device c +:+ " is " +:+ status_str (status c))
  | removed =>
      ("🗑️ Tailscale Device Removed", device c +:+ " was removed from the network")
  | changed =>
      let emoji := match status c with online_ => "🟢" | _ => "🔴" end in
      (emoji +:+ " Device " +:+ str_title (status_str (status c)),
       device c +:+ " is now " +:+ status_str (status c))
  end.

(** ** The state file *)

(** What [STATE_FILE] holds, for a file that is absent, that cannot be
    loaded, or that the program itself has written: [Stored] is a map as
    [save_current_state] receives it, every entry complete.  [json.dump] and
    [json.load] belong to the library: a dict with [str] keys and [str] and
    [bool] values is read back equal, in the same order.  The file system
    is taken to cooperate: the directory of the file can be created and the
    write succeeds; a failing [mkdir] or write, and a file written by
    another hand, are outside the model. *)
Inductive state_file : Type :=
  | Missing
  | Unreadable
  | Stored (state : snapshot).

(** [load_previous_state()]: the stored dict, or the empty dict when the
    file does not exist or loading it raises. *)
Definition load_previous_state (file : state_file) : snapshot :=
  match file with
  | Stored state => state
  | Missing | Unreadable => []
  end.

(** [save_current_state(state)] *)
Definition save_current_state (state : snapshot) (file : state_file) : state_file :=
  Stored state.

(** ** The driver *)

(** [str(e)] for the exception that reaches the loop of [main]: the [repr]
    of the missing key.  The other exceptions are caught inside the
    classifier or end [main] uncaught; their library messages are not
    modelled. *)
Definition exn_str (e : exn) : string :=
  match e with
  | KeyError key => "'" +:+ key +:+ "'"
  | ValueError | TypeError | OverflowError => ""
  end.

(** What one pass of the loop meets: the payload fetched, if any, and the
    clock readings of its classifier calls. *)
Record iteration : Type := Iteration {
  fetched : option (list raw_device);
  readings : nat -> Z
}.

Definition with_clock (E : Environment) (c : nat -> Z) : Environment :=
  {| fromisoformat := @fromisoformat E;
     ONLINE_THRESHOLD_SECONDS := @ONLINE_THRESHOLD_SECONDS E;
     CHECK_INTERVAL := @CHECK_INTERVAL E;
     clock := c |}.

Section Driver.
Context `{Environment}.

(** [check_devices()] with its effects: the calls of [send_notification]
    in order, and the state file afterwards or the exception that ended the
    call.  The map is built before anything is sent or saved. *)
Definition run_check_devices (data : option (list raw_device)) (file : state_file)
    : list (string * string) * result state_file :=
  match check_devices data (load_previous_state file) with
  | Raise e => ([], Raise e)
  | Return None => ([], Return file)
  | Return (Some (changes, current_devices)) =>
      (change_notification <$> changes, Return (save_current_state current_devices file))
  end.


(** The body of [while True]: [try: check_devices()] and the handler that
    reports the exception. *)
Definition monitoring_cycle (data : option (list raw_device)) (file : state_file)
    : list (string * string) * state_file :=
  match run_check_devices data file with
  | (sent, Return file') => (sent, file')
  | (sent, Raise e) => ((sent ++ [("⚠️ Tailscale Monitor Error", exn_str e)])%list, file)
  end.
End Driver.

(** The first passes of the loop, which never ends by itself: everything
    sent and the state file after them. *)
Fixpoint monitoring_loop (E : Environment) (iterations : list iteration) (file : state_file)
    : list (string * string) * state_file :=
  match iterations with
  | [] => ([], file)
  | it :: rest =>
      let '(sent, file') :=
        monitoring_cycle (H := with_clock E (readings it)) (fetched it) file in
      let '(sent', file'') := monitoring_loop E rest file' in
      ((sent ++ sent')%list, file'')
  end.




(** ** Concrete environments and scenarios *)

Module Scenario.

(** A parser that knows two timestamps, one with an offset and one
    without. *)
Definition parse (s : string) : option datetime :=
  if decide (s = "1970-01-01T00:01:00+00:00") then Some (Aware 60000000)
  else if decide (s = "1970-01-01T00:01:00") then Some (Naive 60000000)
  else None.

(** The default configuration, with a clock that shows [now] at every
    reading. *)
Definition env (now : Z) : Environment :=
  {| fromisoformat := parse;
     ONLINE_THRESHOLD_SECONDS := 60;
     CHECK_INTERVAL := 60;
     clock := fun _ => now |}.

Definition A : entry := {| name := "A"; online := true; lastSeen := "" |}.
Definition A_off : entry := {| name := "A"; online := false; lastSeen := "" |}.
Definition B_off : entry := {| name := "B"; online := false; lastSeen := "" |}.
Definition B_on : entry := {| name := "B"; online := true; lastSeen := "" |}.
Definition C_on : entry := {| name := "C"; online := true; lastSeen := "" |}.

(** Scenario 5 of the specification. *)
Definition previous5 : snapshot := [("A", A); ("B", B_off)].
Definition current5 : snapshot := [("B", B_on); ("C", C_on)].

(** A record without an id followed by a valid one. *)
Definition no_id : raw_device := {[ "name" := "laptop" ]}.
Definition valid : raw_device :=
  {[ "id" := "n2"; "name" := "phone"; "lastSeen" := "1970-01-01T00:01:00Z" ]}.

(** A record whose name is the empty string. *)
Definition empty_name : raw_device :=
  {[ "id" := "n3"; "name" := ""; "hostname" := "host3" ]}.

(** Two records with the same id. *)
Definition first_n1 : raw_device := {[ "id" := "n1"; "name" := "alpha" ]}.
Definition second_n1 : raw_device := {[ "id" := "n1"; "name" := "beta" ]}.

(** A record with only an id, and records for the unparsable cases. *)
Definition bare : raw_device := {[ "id" := "n4" ]}.
Definition garbled : raw_device := {[ "id" := "n5"; "lastSeen" := "yesterday" ]}.

(** An environment whose parser accepts every string. *)
Definition lenient : Environment :=
  {| fromisoformat := fun _ => Some (Aware 0);
     ONLINE_THRESHOLD_SECONDS := 60;
     CHECK_INTERVAL := 60;
     clock := fun _ => 0 |}.

(** Device A again, renamed and seen later, with the same online flag. *)
Definition A_renamed : entry :=
  {| name := "A (renamed)"; online := true; lastSeen := "1970-01-01T00:01:00Z" |}.

(** The default configuration with the threshold set to zero, read at the
    instant of the known heartbeat. *)
Definition no_window : Environment :=
  {| fromisoformat := parse;
     ONLINE_THRESHOLD_SECONDS := 0;
     CHECK_INTERVAL := 60;
     clock := fun _ => 60000000 |}.

(** The default configuration with the smallest threshold whose
    [timedelta] does not exist. *)
Definition beyond_timedelta : Environment :=
  {| fromisoformat := parse;
     ONLINE_THRESHOLD_SECONDS := 86400000000000;
     CHECK_INTERVAL := 60;
     clock := fun _ => 60000000 |}.

(** A record whose heartbeat carries no UTC offset. *)
Definition unzoned : raw_device :=
  {[ "id" := "n7"; "lastSeen" := "1970-01-01T00:01:00" ]}.


(** A pass of the loop that fetches the one valid record, a pass that
    fetches a record without an id, and a pass whose fetch fails. *)
Definition pass_valid : iteration := {| fetched := Some [valid]; readings := fun _ => 0 |}.
Definition pass_no_id : iteration :=
  {| fetched := Some [no_id; valid]; readings := fun _ => 0 |}.
Definition pass_failed : iteration := {| fetched := None; readings := fun _ => 0 |}.
End Scenario.

(** ** The algorithm of the specification

    Section 4.3 of the specification, written after its words, with the id
    each event is about: step 1 for an item of [current], step 2 for an
    item of [previous]. *)

Definition spec_step1 (previous : snapshot) (item : string * entry)
    : option (string * change) :=
  match PyDict.get item.1 previous with
  | None =>
      Some (item.1, {| device := name item.2; status := status_of (online item.2); type := new |})
  | Some prev =>
      if bool_decide (online prev = online item.2) then None
      else Some (item.1, {| device := name item.2; status := status_of (online item.2);
                            type := changed |})
  end.

Definition spec_step2 (current : snapshot) (item : string * entry)
    : option (string * change) :=
  if bool_decide (item.1 ∈ PyDict.keys current) then None
  else Some (item.1, {| device := name item.2; status := removed_; type := removed |}).

Definition spec_diff (current previous : snapshot) : list (string * change) :=
  omap (spec_step1 previous) current ++ omap (spec_step2 current) previous.

(** The id's presence changed, or its online flag did. *)
Definition differs (device_id : string) (current previous : snapshot) : Prop :=
  match PyDict.get device_id current, PyDict.get device_id previous with
  | Some cur, Some prev => online cur <> online prev
  | Some _, None | None, Some _ => True
  | None, None => False
  end.




(** [formatReport(current)] of section 4.4, written after its words: the
    report computed from the snapshot's entries. *)
Definition formatReport `{Environment} (current : snapshot) : list string :=
  body_parts (name <$> filter (fun e => online e = true) current.*2)
             (name <$> filter (fun e => online e = false) current.*2).

(** Every record's display name with the answer the classifier gives for
    it in the report loop, in payload order. *)
Fixpoint classify `{Environment} (devices : list raw_device) (tick : nat)
    : list (string * bool) :=
  match devices with
  | [] => []
  | dev :: rest =>
      (device_name dev, is_device_online (clock tick) dev) :: classify rest (S tick)
  end.

(** The display name as the specification words it: [name] if present,
    else [hostname], else ["Unknown"]. *)
Definition spec_name (dev : raw_device) : string :=
  match dev !! "name" with
  | Some n => n
  | None => default "Unknown" (dev !! "hostname")
  end.

(** ** Notions used to state further properties *)

(** The elements of a list in the order of their first occurrence. *)
Fixpoint first_occurrences (ids : list string) : list string :=
  match ids with
  | [] => []
  | device_id :: rest => device_id :: filter (fun k => k <> device_id) (first_occurrences rest)
  end.

(** The ids of the records of a payload that carry one. *)
Definition payload_ids (devices : list raw_device) : list string :=
  omap (fun dev : raw_device => dev !! "id") devices.

(** The type of the event seen from the other side of a comparison. *)
Definition opposite (t : type_t) : type_t :=
  match t with
  | new => removed
  | removed => new
  | changed => changed
  end.

(** An entry without a heartbeat is not online. *)
Definition entry_ok (e : entry) : Prop := lastSeen e = "" -> online e = false.

(** The payload read as a state map, record by record: what the builder
    stores for each record, at the clock reading of its classifier call. *)
Fixpoint payload_entries `{Environment} (devices : list raw_device) (tick : nat) : snapshot :=
  match devices with
  | [] => []
  | dev :: rest =>
      (default "" (dev !! "id"), device_entry (clock tick) dev)
      :: payload_entries rest (S tick)
  end.

(** The state file holds nothing, or a map with distinct keys whose entries
    without a heartbeat are offline. *)
Definition file_ok (file : state_file) : Prop :=
  match file with
  | Stored state => PyDict.wf state /\ Forall (fun item => entry_ok item.2) state
  | Missing | Unreadable => True
  end.

(** * Properties *)

(** ** Dicts *)

Section PyDictFacts.
Context {V : Type}.
Implicit Types (d : PyDict.t V) (k : string) (v : V).

Lemma wf_nil : PyDict.wf ([] : PyDict.t V).
Proof. apply NoDup_nil_2. Qed.

Lemma get_None d k : PyDict.get k d = None <-> k ∉ PyDict.keys d.
Proof.
  unfold PyDict.keys. induction d as [|[k' v'] d IH]; simpl.
  - split; [intros _; apply not_elem_of_nil | done].
  - rewrite not_elem_of_cons. destruct (decide (k' = k)) as [->|Hne].
    + split; [done | intros [? _]; done].
    + rewrite IH. split; [intros ?; split; [congruence | done] | intros [_ ?]; done].
Qed.

Lemma get_Some_elem d k v : PyDict.get k d = Some v -> (k, v) ∈ d.
Proof.
  induction d as [|[k' v'] d IH]; simpl; [done |].
  destruct (decide (k' = k)) as [->|Hne].
  - intros [= ->]. apply list_elem_of_here.
  - intros Hg. apply list_elem_of_further, IH, Hg.
Qed.

Lemma get_Some_keys d k v : PyDict.get k d = Some v -> k ∈ PyDict.keys d.
Proof.
  intros Hg. destruct (decide (k ∈ PyDict.keys d)) as [|Hn]; [done |].
  apply get_None in Hn. congruence.
Qed.

Lemma get_wf_elem d k v : PyDict.wf d -> (k, v) ∈ d -> PyDict.get k d = Some v.
Proof.
  unfold PyDict.wf, PyDict.keys. induction d as [|[k' v'] d IH]; simpl.
  - intros _ Hin. by apply elem_of_nil in Hin.
  - rewrite NoDup_cons. intros [Hnotin Hnd] Hin.
    apply elem_of_cons in Hin as [[= -> ->]|Hin].
    + by rewrite decide_True.
    + destruct (decide (k' = k)) as [->|Hne]; [| by apply IH].
      exfalso. apply Hnotin. apply (list_elem_of_fmap_2 fst) in Hin. exact Hin.
Qed.

Lemma mem_keys d k : PyDict.mem k d = bool_decide (k ∈ PyDict.keys d).
Proof.
  unfold PyDict.mem. destruct (PyDict.get k d) eqn:Hg.
  - apply get_Some_keys in Hg. by rewrite bool_decide_eq_true_2.
  - apply get_None in Hg. by rewrite bool_decide_eq_false_2.
Qed.

Lemma get_set_eq d k v : PyDict.get k (PyDict.set k v d) = Some v.
Proof.
  induction d as [|[k' v'] d IH]; simpl.
  - by rewrite decide_True.
  - destruct (decide (k' = k)) as [->|Hne]; simpl.
    + by rewrite decide_True.
    + by rewrite decide_False.
Qed.

Lemma get_set_ne d k k' v : k <> k' -> PyDict.get k' (PyDict.set k v d) = PyDict.get k' d.
Proof.
  intros Hne. induction d as [|[k0 v0] d IH]; simpl.
  - by rewrite decide_False.
  - destruct (decide (k0 = k)) as [->|Hne0]; simpl.
    + by rewrite !decide_False.
    + destruct (decide (k0 = k')); [done | apply IH].
Qed.

Lemma keys_set d k v :
  PyDict.keys (PyDict.set k v d)
  = if PyDict.mem k d then PyDict.keys d else (PyDict.keys d ++ [k])%list.
Proof.
  unfold PyDict.mem, PyDict.keys. induction d as [|[k0 v0] d IH]; [done |].
  cbn [PyDict.set PyDict.get].
  destruct (decide (k0 = k)) as [->|Hne0]; [done |].
  rewrite !fmap_cons, IH. by destruct (PyDict.get k d).
Qed.

Lemma wf_set d k v : PyDict.wf d -> PyDict.wf (PyDict.set k v d).
Proof.
  unfold PyDict.wf. rewrite keys_set, mem_keys. intros Hnd.
  case_bool_decide as Hin; [done |].
  apply NoDup_app. split; [done |]. split; [| apply NoDup_singleton].
  intros x Hx Hx'. apply list_elem_of_singleton in Hx'. by subst.
Qed.

Lemma elem_keys_set d k k' v :
  k' ∈ PyDict.keys (PyDict.set k v d) <-> k' = k \/ k' ∈ PyDict.keys d.
Proof.
  rewrite keys_set, mem_keys. case_bool_decide as Hin.
  - split; [auto | intros [->|?]; done].
  - rewrite elem_of_app, list_elem_of_singleton. tauto.
Qed.
End PyDictFacts.

(** ** The two loops compute the algorithm of the specification *)

Lemma fold_report_current_traced previous current acc :
  fold_left (report_current_traced previous) current acc
  = (acc ++ omap (spec_step1 previous) current)%list.
Proof.
  revert acc. induction current as [|[device_id dev] current IH]; intros acc.
  - by rewrite app_nil_r.
  - cbn [fold_left omap list_omap]. rewrite IH.
    unfold report_current_traced, spec_step1. cbn [fst snd].
    destruct (PyDict.get device_id previous) as [prev|]; [| by rewrite <- app_assoc].
    destruct (online prev), (online dev); cbn; by rewrite <- ?app_assoc.
Qed.

Lemma fold_report_removed_traced current previous acc :
  fold_left (report_removed_traced current) previous acc
  = (acc ++ omap (spec_step2 current) previous)%list.
Proof.
  revert acc. induction previous as [|[device_id dev] previous IH]; intros acc.
  - by rewrite app_nil_r.
  - cbn [fold_left omap list_omap]. rewrite IH.
    unfold report_removed_traced, spec_step2. cbn [fst snd].
    rewrite mem_keys. case_bool_decide; by rewrite <- ?app_assoc.
Qed.

Lemma detect_changes_traced_spec current previous :
  detect_changes_traced current previous = spec_diff current previous.
Proof.
  unfold detect_changes_traced, spec_diff.
  by rewrite fold_report_removed_traced, fold_report_current_traced.
Qed.

(** Erasing the ghost ids gives the program's loops back. *)
Lemma fold_report_current_erase previous current acc :
  (fold_left (report_current_traced previous) current acc).*2
  = fold_left (report_current previous) current acc.*2.
Proof.
  revert acc. induction current as [|[device_id dev] current IH]; intros acc; [done |].
  cbn [fold_left]. rewrite IH. f_equal.
  unfold report_current_traced, report_current.
  destruct (PyDict.get device_id previous) as [prev|]; [| by rewrite fmap_app].
  destruct (xorb (online prev) (online dev)); [by rewrite fmap_app | done].
Qed.

Lemma fold_report_removed_erase current previous acc :
  (fold_left (report_removed_traced current) previous acc).*2
  = fold_left (report_removed current) previous acc.*2.
Proof.
  revert acc. induction previous as [|[device_id dev] previous IH]; intros acc; [done |].
  cbn [fold_left]. rewrite IH. f_equal.
  unfold report_removed_traced, report_removed.
  destruct (PyDict.mem device_id current); [done | by rewrite fmap_app].
Qed.

Lemma detect_changes_erase current previous :
  (detect_changes_traced current previous).*2 = detect_changes current previous.
Proof.
  unfold detect_changes_traced, detect_changes.
  by rewrite fold_report_removed_erase, fold_report_current_erase.
Qed.

Lemma spec_step1_id previous item p : spec_step1 previous item = Some p -> p.1 = item.1.
Proof.
  unfold spec_step1. destruct (PyDict.get item.1 previous) as [prev|].
  - case_bool_decide; [done | by intros [= <-]].
  - by intros [= <-].
Qed.

Lemma spec_step2_id current item p : spec_step2 current item = Some p -> p.1 = item.1.
Proof. unfold spec_step2. case_bool_decide; [done | by intros [= <-]]. Qed.

Lemma omap_all_None {A B} (f : A -> option B) (l : list A) :
  (forall x, x ∈ l -> f x = None) -> omap f l = [].
Proof.
  induction l as [|x l IH]; intros Hf; [done |].
  cbn [omap list_omap]. rewrite (Hf x) by apply list_elem_of_here.
  apply IH. intros y Hy. apply Hf. by apply list_elem_of_further.
Qed.

(** In a dict the events about one id come from the one item with that
    key. *)
Lemma filter_omap_key {V} (f : string * V -> option (string * change))
    (d : PyDict.t V) (device_id : string) :
  (forall item p, f item = Some p -> p.1 = item.1) ->
  PyDict.wf d ->
  filter (fun p => p.1 = device_id) (omap f d)
  = match PyDict.get device_id d with
    | Some v => match f (device_id, v) with Some p => [p] | None => [] end
    | None => []
    end.
Proof.
  intros Hf. unfold PyDict.wf, PyDict.keys.
  induction d as [|[k v] d IH]; [done |].
  rewrite fmap_cons, NoDup_cons. cbn [fst]. intros [Hnotin Hnd].
  cbn [omap list_omap PyDict.get]. specialize (IH Hnd).
  destruct (decide (k = device_id)) as [->|Hne].
  - apply get_None in Hnotin. rewrite Hnotin in IH.
    destruct (f (device_id, v)) as [p|] eqn:Hp; [| exact IH].
    rewrite filter_cons_True by (by apply Hf in Hp). by rewrite IH.
  - destruct (f (k, v)) as [p|] eqn:Hp; [| exact IH].
    rewrite filter_cons_False; [exact IH |].
    apply Hf in Hp. cbn in Hp. congruence.
Qed.

Lemma changes_of_spec_diff current previous device_id :
  PyDict.wf current -> PyDict.wf previous ->
  changes_of device_id (spec_diff current previous)
  = match PyDict.get device_id current, PyDict.get device_id previous with
    | Some cur, Some prev =>
        if bool_decide (online prev = online cur) then []
        else [ {| device := name cur; status := status_of (online cur); type := changed |} ]
    | Some cur, None =>
        [ {| device := name cur; status := status_of (online cur); type := new |} ]
    | None, Some prev =>
        [ {| device := name prev; status := removed_; type := removed |} ]
    | None, None => []
    end.
Proof.
  intros Hc Hp. unfold changes_of, spec_diff.
  rewrite filter_app, fmap_app.
  rewrite (filter_omap_key _ current) by (apply spec_step1_id || done).
  rewrite (filter_omap_key _ previous) by (apply spec_step2_id || done).
  unfold spec_step1, spec_step2. cbn [fst snd].
  destruct (PyDict.get device_id current) as [cur|] eqn:Hgc.
  - apply get_Some_keys in Hgc as Hin.
    destruct (PyDict.get device_id previous) as [prev|] eqn:Hgp.
    + rewrite (bool_decide_eq_true_2 _ Hin).
      case_bool_decide; by rewrite ?app_nil_r.
    + done.
  - apply get_None in Hgc as Hnotin.
    destruct (PyDict.get device_id previous) as [prev|] eqn:Hgp; [| done].
    by rewrite (bool_decide_eq_false_2 _ Hnotin).
Qed.

(** ** The builder loop *)

Section BuilderFacts.
Context `{Environment}.
Implicit Types (devices : list raw_device) (tick : nat) (cur : snapshot).

Lemma build_app pre post tick cur :
  build_current_devices (pre ++ post) tick cur
  = match build_current_devices pre tick cur with
    | Return cur' => build_current_devices post (tick + length pre) cur'
    | Raise e => Raise e
    end.
Proof.
  revert tick cur. induction pre as [|dev pre IH]; intros tick cur.
  - cbn. by rewrite Nat.add_0_r.
  - cbn [app build_current_devices length].
    destruct (dev !! "id") as [device_id|]; [| done].
    rewrite IH. by replace (S tick + length pre)%nat with (tick + S (length pre))%nat by lia.
Qed.

Lemma build_Return devices tick cur :
  Forall (fun dev => is_Some (dev !! "id")) devices ->
  exists built, build_current_devices devices tick cur = Return built.
Proof.
  intros Hall. revert tick cur.
  induction Hall as [|dev devices [device_id Hid] _ IH]; intros tick cur.
  - by exists cur.
  - cbn [build_current_devices]. rewrite Hid. apply IH.
Qed.

Lemma build_Raise devices tick cur :
  Exists (fun dev => dev !! "id" = None) devices ->
  build_current_devices devices tick cur = Raise (KeyError "id").
Proof.
  intros Hex. revert tick cur.
  induction devices as [|dev devices IH]; intros tick cur.
  - by apply Exists_nil in Hex.
  - cbn [build_current_devices].
    destruct (dev !! "id") as [device_id|] eqn:Hid; [| done].
    apply IH. apply Exists_cons in Hex as [Hex|Hex]; [congruence | done].
Qed.

Lemma build_wf devices tick cur built :
  PyDict.wf cur -> build_current_devices devices tick cur = Return built -> PyDict.wf built.
Proof.
  revert tick cur. induction devices as [|dev devices IH]; intros tick cur Hwf.
  - by intros [= <-].
  - cbn [build_current_devices].
    destruct (dev !! "id") as [device_id|]; [| done].
    apply IH. by apply wf_set.
Qed.

Lemma build_keys devices tick cur built :
  build_current_devices devices tick cur = Return built ->
  forall device_id,
    device_id ∈ PyDict.keys built
    <-> device_id ∈ PyDict.keys cur
        \/ exists dev, dev ∈ devices /\ dev !! "id" = Some device_id.
Proof.
  revert tick cur. induction devices as [|dev devices IH]; intros tick cur.
  - intros [= <-] device_id. split; [auto |].
    intros [?|(dev & Hin & _)]; [done | by apply elem_of_nil in Hin].
  - cbn [build_current_devices].
    destruct (dev !! "id") as [k|] eqn:Hid; [| done].
    intros Hb device_id. rewrite (IH _ _ Hb), elem_keys_set. split.
    + intros [[->|?]|(dev' & Hin & Hid')].
      * right. exists dev. split; [apply list_elem_of_here | done].
      * by left.
      * right. exists dev'. split; [by apply list_elem_of_further | done].
    + intros [?|(dev' & Hin & Hid')]; [by left; right |].
      apply elem_of_cons in Hin as [->|Hin].
      * left; left. congruence.
      * right. by exists dev'.
Qed.

Lemma build_get_other devices tick cur built device_id :
  build_current_devices devices tick cur = Return built ->
  Forall (fun dev => dev !! "id" <> Some device_id) devices ->
  PyDict.get device_id built = PyDict.get device_id cur.
Proof.
  intros Hb Hall. revert tick cur Hb.
  induction Hall as [|dev devices Hne _ IH]; intros tick cur.
  - by intros [= <-].
  - cbn [build_current_devices].
    destruct (dev !! "id") as [k|] eqn:Hid; [| done].
    intros Hb. rewrite (IH _ _ Hb). apply get_set_ne. congruence.
Qed.

(** Last write wins: the entry under an id is the one built from the last
    record carrying that id. *)
Lemma build_get_last pre dev post tick cur built device_id :
  build_current_devices (pre ++ dev :: post) tick cur = Return built ->
  dev !! "id" = Some device_id ->
  Forall (fun dev' => dev' !! "id" <> Some device_id) post ->
  PyDict.get device_id built = Some (device_entry (clock (tick + length pre)) dev).
Proof.
  rewrite build_app.
  destruct (build_current_devices pre tick cur) as [cur'|]; [| done].
  cbn [build_current_devices]. intros Hb Hid Hpost. rewrite Hid in Hb.
  rewrite (build_get_other _ _ _ _ _ Hb Hpost). apply get_set_eq.
Qed.

(** Every entry of the built map was built from a record of the payload
    with that id (or was there before). *)
Lemma build_get_inv devices tick cur built device_id e :
  build_current_devices devices tick cur = Return built ->
  PyDict.get device_id built = Some e ->
  PyDict.get device_id cur = Some e
  \/ exists i dev, devices !! i = Some dev /\ dev !! "id" = Some device_id
                   /\ e = device_entry (clock (tick + i)) dev.
Proof.
  revert tick cur. induction devices as [|dev devices IH]; intros tick cur.
  - intros [= <-]. by left.
  - cbn [build_current_devices].
    destruct (dev !! "id") as [k|] eqn:Hid; [| done].
    intros Hb Hg. destruct (IH _ _ Hb Hg) as [Hcur|(i & dev' & Hi & Hid' & ->)].
    + destruct (decide (k = device_id)) as [->|Hne].
      * rewrite get_set_eq in Hcur. injection Hcur as <-.
        right. exists 0%nat, dev. by rewrite Nat.add_0_r.
      * rewrite get_set_ne in Hcur by done. by left.
    + right. exists (S i), dev'. split; [done |]. split; [done |].
      by replace (tick + S i)%nat with (S tick + i)%nat by lia.
Qed.
End BuilderFacts.

(** ** The classifier *)

Section ClassifierFacts.
Context `{Environment}.

Lemma is_device_online_absent now dev :
  dev !! "lastSeen" = None -> is_device_online now dev = false.
Proof. unfold is_device_online. by intros ->. Qed.

Lemma is_device_online_empty now dev :
  dev !! "lastSeen" = Some "" -> is_device_online now dev = false.
Proof. unfold is_device_online. by intros ->. Qed.

Lemma is_device_online_unparsable now dev last_seen :
  dev !! "lastSeen" = Some last_seen ->
  fromisoformat (replace "Z" "+00:00" last_seen) = None ->
  is_device_online now dev = false.
Proof.
  unfold is_device_online, is_device_online_try. intros -> ->.
  by destruct (truthy last_seen).
Qed.

Lemma is_device_online_naive now dev last_seen wall :
  dev !! "lastSeen" = Some last_seen ->
  fromisoformat (replace "Z" "+00:00" last_seen) = Some (Naive wall) ->
  is_device_online now dev = false.
Proof.
  unfold is_device_online, is_device_online_try. intros -> ->.
  by destruct (truthy last_seen).
Qed.

Lemma is_device_online_aware now dev last_seen t :
  dev !! "lastSeen" = Some last_seen ->
  last_seen <> "" ->
  fromisoformat (replace "Z" "+00:00" last_seen) = Some (Aware t) ->
  is_device_online now dev
  = bool_decide (-999999999 <= ONLINE_THRESHOLD_SECONDS / 86400 <= 999999999)
    && bool_decide (now - t < ONLINE_THRESHOLD_SECONDS * 1000000).
Proof.
  unfold is_device_online, is_device_online_try, timedelta. intros -> Hne ->.
  destruct last_seen; [done |]. cbn. by case_bool_decide.
Qed.
End ClassifierFacts.


(** ** The report *)

#[global] Instance str_le_total : Total str_le.
Proof. intros s1 s2. apply String.leb_total. Qed.

Lemma sorted_Sorted names : Sorted str_le (sorted names).
Proof. apply (Sorted_merge_sort str_le). Qed.

Lemma sorted_Permutation names : sorted names ≡ₚ names.
Proof. apply merge_sort_Permutation. Qed.

Section ReportFacts.
Context `{Environment}.

Lemma partition_devices_classify devices tick online_devices offline_devices :
  partition_devices devices tick online_devices offline_devices
  = ((online_devices ++ (filter (fun p => p.2 = true) (classify devices tick)).*1)%list,
     (offline_devices ++ (filter (fun p => p.2 = false) (classify devices tick)).*1)%list).
Proof.
  revert tick online_devices offline_devices.
  induction devices as [|dev devices IH]; intros tick online_devices offline_devices.
  - cbn. by rewrite !app_nil_r.
  - cbn [partition_devices classify].
    destruct (is_device_online (clock tick) dev) eqn:Hon; rewrite IH.
    + rewrite filter_cons_True, filter_cons_False by (cbn; congruence).
      by rewrite fmap_cons, <- app_assoc.
    + rewrite filter_cons_False, filter_cons_True by (cbn; congruence).
      by rewrite fmap_cons, <- app_assoc.
Qed.

Lemma classify_length devices tick : length (classify devices tick) = length devices.
Proof.
  revert tick. induction devices as [|dev devices IH]; intros tick; [done |].
  cbn. by rewrite IH.
Qed.

Lemma filter_flag_length (l : list (string * bool)) :
  (length (filter (fun p => p.2 = true) l) + length (filter (fun p => p.2 = false) l))%nat
  = length l.
Proof.
  induction l as [|[n b] l IH]; [done |].
  destruct b.
  - rewrite filter_cons_True, filter_cons_False by (cbn; congruence). cbn. lia.
  - rewrite filter_cons_False, filter_cons_True by (cbn; congruence). cbn. lia.
Qed.
End ReportFacts.

(** ** Names play no part in the decisions *)






(** * The claims *)

Section Claims.
Context `{Environment}.

(** C1 (as amended).  When some record of the payload has no ['id'] field,
    the loop that builds the state map raises [KeyError] and no state map
    is produced, whatever the other records are.  [check_devices] then ends
    with that exception, without changes and without a state to save; in
    [send_initial_status] the report has been sent and the state is not
    saved. *)
Theorem missing_id_aborts_batch (devices : list raw_device) (previous_state : snapshot) :
  Exists (fun dev => dev !! "id" = None) devices ->
  (forall tick cur, build_current_devices devices tick cur = Raise (KeyError "id"))
  /\ check_devices (Some devices) previous_state = Raise (KeyError "id")
  /\ exists title parts body,
       send_initial_status (Some devices) = Some (title, parts, body, Raise (KeyError "id")).
Proof.
  intros Hex. split; [| split].
  - intros tick cur. by apply build_Raise.
  - unfold check_devices. by rewrite build_Raise.
  - unfold send_initial_status. destruct (status_report devices) as [title parts].
    exists title, parts, (join newline parts). by rewrite build_Raise.
Qed.

(** C2.  Detecting changes of a state map against itself yields no
    change. *)
Theorem detect_changes_self (state : snapshot) :
  PyDict.wf state -> detect_changes state state = [].
Proof.
  intros Hwf. rewrite <- detect_changes_erase, detect_changes_traced_spec.
  unfold spec_diff. rewrite !omap_all_None; [done | |].
  - intros [device_id dev] Hin. unfold spec_step2. cbn [fst].
    rewrite bool_decide_eq_true_2; [done |].
    by apply (list_elem_of_fmap_2 fst) in Hin.
  - intros [device_id dev] Hin. unfold spec_step1. cbn [fst snd].
    rewrite (get_wf_elem _ _ _ Hwf Hin). by rewrite bool_decide_eq_true_2.
Qed.

(** C3.  For two state maps and any id, the changes attributed to the id by
    the ghost trace (whose erasure is the program's list of changes) are at
    most one, and exactly one precisely when the id is present in only one
    of the maps or its online flag differs between them. *)
Theorem detect_changes_complete (current previous : snapshot) (device_id : string) :
  PyDict.wf current -> PyDict.wf previous ->
  (detect_changes_traced current previous).*2 = detect_changes current previous
  /\ (length (changes_of device_id (detect_changes_traced current previous)) <= 1)%nat
  /\ (differs device_id current previous
      <-> length (changes_of device_id (detect_changes_traced current previous)) = 1%nat).
Proof.
  intros Hc Hp. split; [apply detect_changes_erase |].
  rewrite detect_changes_traced_spec, changes_of_spec_diff by done.
  unfold differs.
  destruct (PyDict.get device_id current) as [cur|],
           (PyDict.get device_id previous) as [prev|]; cbn; try (split; [lia | done]).
  case_bool_decide as Heq; cbn.
  - split; [lia |]. split; [congruence | done].
  - split; [lia |]. split; [done | congruence].
Qed.

(** C4.  The changes are those of step 1 over the items of the current map
    in its insertion order, followed by those of step 2 over the items of
    the previous map in its insertion order: the ids of the first part form
    a subsequence of the current keys and none of its changes is a removal,
    the ids of the second part form a subsequence of the previous keys and
    all its changes are removals.  On scenario 5 the result is B changed to
    online, C new and online, A removed, in that order. *)
Theorem detect_changes_order (current previous : snapshot) :
  let first := omap (spec_step1 previous) current in
  let second := omap (spec_step2 current) previous in
  detect_changes current previous = (first.*2 ++ second.*2)%list
  /\ detect_changes_traced current previous = (first ++ second)%list
  /\ first.*1 `sublist_of` PyDict.keys current
  /\ Forall (fun p => type p.2 <> removed) first
  /\ second.*1 `sublist_of` PyDict.keys previous
  /\ Forall (fun p => type p.2 = removed /\ status p.2 = removed_) second
  /\ detect_changes Scenario.current5 Scenario.previous5
     = [ {| device := "B"; status := online_; type := changed |};
         {| device := "C"; status := online_; type := new |};
         {| device := "A"; status := removed_; type := removed |} ].
Proof.
  intros first second.
  assert (Hsub : forall (f : string * entry -> option (string * change)) (d : snapshot),
             (forall item p, f item = Some p -> p.1 = item.1) ->
             (omap f d).*1 `sublist_of` PyDict.keys d).
  { intros f d Hf. unfold PyDict.keys. induction d as [|item d IH]; [done |].
    cbn [omap list_omap]. rewrite fmap_cons.
    destruct (f item) as [p|] eqn:Hp.
    - rewrite fmap_cons, (Hf _ _ Hp). by apply sublist_skip.
    - by apply sublist_cons. }
  split; [| split; [| split; [| split; [| split; [| split]]]]].
  - rewrite <- detect_changes_erase, detect_changes_traced_spec. apply fmap_app.
  - apply detect_changes_traced_spec.
  - apply Hsub, spec_step1_id.
  - apply Forall_forall. intros p Hin. apply list_elem_of_omap in Hin as (item & _ & Hp).
    unfold spec_step1 in Hp. destruct (PyDict.get item.1 previous).
    + case_bool_decide; [done |]. by injection Hp as <-.
    + by injection Hp as <-.
  - apply Hsub, spec_step2_id.
  - apply Forall_forall. intros p Hin. apply list_elem_of_omap in Hin as (item & _ & Hp).
    unfold spec_step2 in Hp. case_bool_decide; [done |]. by injection Hp as <-.
  - reflexivity.
Qed.

(** C5 (as amended).  For a device whose [lastSeen] is parsable, the
    classifier answers true exactly when the timestamp carries a UTC
    offset, the threshold is one [timedelta] can hold (its whole days at
    most 999999999 in magnitude) and [now - lastSeen] is strictly below the
    threshold.  Under those two conditions it answers false when the
    elapsed time equals the threshold and true for any elapsed time below
    it, a negative one included.  For a timestamp without offset, and for
    a threshold [timedelta] cannot hold, it answers false. *)
Theorem is_device_online_threshold (now : Z) (dev : raw_device) (last_seen : string)
    (parsed : datetime) :
  dev !! "lastSeen" = Some last_seen ->
  last_seen <> "" ->
  fromisoformat (replace "Z" "+00:00" last_seen) = Some parsed ->
  (is_device_online now dev = true
   <-> exists t, parsed = Aware t
         /\ -999999999 <= ONLINE_THRESHOLD_SECONDS / 86400 <= 999999999
         /\ now - t < ONLINE_THRESHOLD_SECONDS * 1000000)
  /\ (forall t, parsed = Aware t ->
        -999999999 <= ONLINE_THRESHOLD_SECONDS / 86400 <= 999999999 ->
        (now - t = ONLINE_THRESHOLD_SECONDS * 1000000 -> is_device_online now dev = false)
        /\ (now - t < ONLINE_THRESHOLD_SECONDS * 1000000 -> is_device_online now dev = true)
        /\ (now - t < 0 -> 0 <= ONLINE_THRESHOLD_SECONDS -> is_device_online now dev = true))
  /\ (forall wall, parsed = Naive wall -> is_device_online now dev = false)
  /\ (~ (-999999999 <= ONLINE_THRESHOLD_SECONDS / 86400 <= 999999999) ->
      is_device_online now dev = false).
Proof.
  intros Hseen Hne Hparse. destruct parsed as [t|wall].
  - rewrite (is_device_online_aware _ _ _ _ Hseen Hne Hparse).
    split; [| split; [| split]].
    + rewrite andb_true_iff, !bool_decide_eq_true. split.
      * intros [Hrange Hlt]. by exists t.
      * intros (t' & [= <-] & Hrange & Hlt). done.
    + intros t' [= <-] Hrange. rewrite (bool_decide_eq_true_2 _ Hrange). cbn [andb].
      split; [| split].
      * intros Heq. apply bool_decide_eq_false. lia.
      * intros Hlt. by apply bool_decide_eq_true.
      * intros Hneg Hpos. apply bool_decide_eq_true. lia.
    + done.
    + intros Hrange. by rewrite (bool_decide_eq_false_2 _ Hrange).
  - rewrite (is_device_online_naive _ _ _ _ Hseen Hparse).
    split; [| split; [| split]]; try done.
    split; [done |]. by intros (t & Heq & _).
Qed.

(** C6.  For a device whose [lastSeen] is absent, or is present and is not
    accepted by the timestamp parser, the classifier answers false.  It is
    a total function: the handler of its [try] block turns every exception
    into that answer. *)
Theorem is_device_online_fails_closed (now : Z) (dev : raw_device) :
  dev !! "lastSeen" = None
  \/ (exists last_seen, dev !! "lastSeen" = Some last_seen
        /\ fromisoformat (replace "Z" "+00:00" last_seen) = None) ->
  is_device_online now dev = false.
Proof.
  intros [Habs|(last_seen & Hseen & Hparse)].
  - by apply is_device_online_absent.
  - by apply (is_device_online_unparsable _ _ last_seen).
Qed.

(** C7 (as amended).  When every record of the payload has an ['id'], the
    loop returns a state map with exactly one entry per distinct id of the
    payload; the entry under an id is the one built from the last record
    with that id; and an entry's name is the record's ['name'] if that is
    present and not the empty string, else its ['hostname'] if present,
    else ["Unknown"]. *)
Theorem build_current_devices_last_write_wins (devices : list raw_device) (tick : nat) :
  Forall (fun dev => is_Some (dev !! "id")) devices ->
  exists built,
    build_current_devices devices tick [] = Return built
    /\ PyDict.wf built
    /\ (forall device_id,
          device_id ∈ PyDict.keys built
          <-> exists dev, dev ∈ devices /\ dev !! "id" = Some device_id)
    /\ (forall pre dev post device_id,
          devices = (pre ++ dev :: post)%list ->
          dev !! "id" = Some device_id ->
          Forall (fun dev' => dev' !! "id" <> Some device_id) post ->
          exists e,
            PyDict.get device_id built = Some e
            /\ e = device_entry (clock (tick + length pre)) dev
            /\ (forall n, dev !! "name" = Some n -> n <> "" -> name e = n)
            /\ (forall h, dev !! "name" = None \/ dev !! "name" = Some "" ->
                          dev !! "hostname" = Some h -> name e = h)
            /\ (dev !! "name" = None \/ dev !! "name" = Some "" ->
                dev !! "hostname" = None -> name e = "Unknown")).
Proof.
  intros Hall. destruct (build_Return devices tick [] Hall) as [built Hb].
  exists built. split; [done |]. split; [| split].
  - apply (build_wf _ _ _ _ wf_nil Hb).
  - intros device_id. rewrite (build_keys _ _ _ _ Hb). split; [| auto].
    intros [Hin|?]; [by apply elem_of_nil in Hin | done].
  - intros pre dev post device_id -> Hid Hpost.
    eexists. split; [by apply (build_get_last _ _ _ _ _ _ _ Hb) |].
    split; [done |]. cbn [device_entry name]. unfold device_name, py_or.
    split; [| split].
    + intros n -> Hn. by destruct n.
    + by intros h [->| ->] ->.
    + by intros [->| ->] ->.
Qed.
(** C8 (as amended).  The report of [send_initial_status] is computed from
    the records of the payload, one name per record: the names the
    classifier answers true for are listed under the online heading and the
    others under the offline heading, each list sorted; the first line
    gives the number of records and the headings give the sizes of the two
    lists; an empty list is rendered as the placeholder line; the last line
    gives the check interval. *)
Theorem status_report_contents (devices : list raw_device) :
  let classified := classify devices 0 in
  let online_devices := (filter (fun p => p.2 = true) classified).*1 in
  let offline_devices := (filter (fun p => p.2 = false) classified).*1 in
  exists online_sorted offline_sorted,
    Sorted str_le online_sorted /\ online_sorted ≡ₚ online_devices
    /\ Sorted str_le offline_sorted /\ offline_sorted ≡ₚ offline_devices
    /\ (length online_devices + length offline_devices)%nat = length devices
    /\ (status_report devices).2
       = ([ "Total Devices: " +:+ pretty (length devices);
            "";
            "🟢 Online (" +:+ pretty (length online_devices) +:+ "):" ]
          ++ match online_sorted with
             | [] => ["  (none)"]
             | _ :: _ => (fun dev => "  • " +:+ dev) <$> online_sorted
             end
          ++ [ ""; "🔴 Offline (" +:+ pretty (length offline_devices) +:+ "):" ]
          ++ match offline_sorted with
             | [] => ["  (none)"]
             | _ :: _ => (fun dev => "  • " +:+ dev) <$> offline_sorted
             end
          ++ [ "";
               "🔍 Now monitoring for changes (checking every "
               +:+ pretty CHECK_INTERVAL +:+ "s)..." ])%list
    /\ send_initial_status (Some devices)
       = Some ((status_report devices).1, (status_report devices).2,
               join newline (status_report devices).2,
               build_current_devices devices (length devices) []).
Proof.
  intros classified online_devices offline_devices.
  assert (Hpart : partition_devices devices 0 [] [] = (online_devices, offline_devices))
    by (by rewrite partition_devices_classify).
  assert (Hlen : (length online_devices + length offline_devices)%nat = length devices).
  { unfold online_devices, offline_devices. rewrite !length_fmap, filter_flag_length.
    apply classify_length. }
  assert (Hlines : forall names,
    device_lines names
    = match sorted names with
      | [] => ["  (none)"]
      | _ :: _ => (fun dev => "  • " +:+ dev) <$> sorted names
      end).
  { intros names. pose proof (sorted_Permutation names) as Hperm.
    destruct names as [|n names].
    - apply Permutation_nil_r in Hperm. by rewrite Hperm.
    - cbn [device_lines]. destruct (sorted (n :: names)) eqn:Hs; [| done].
      by apply Permutation_nil_cons in Hperm. }
  exists (sorted online_devices), (sorted offline_devices).
  split; [apply sorted_Sorted |]. split; [apply sorted_Permutation |].
  split; [apply sorted_Sorted |]. split; [apply sorted_Permutation |].
  split; [exact Hlen |]. split.
  - unfold status_report. rewrite Hpart. cbn [snd]. unfold body_parts.
    by rewrite Hlen, !Hlines.
  - unfold send_initial_status. by destruct (status_report devices).
Qed.

End Claims.

(** C9.  A record without [lastSeen] is stored with the empty string as its
    [lastSeen]; the classifier answers false for the record, and it answers
    false for the record carrying that empty string in any environment,
    that is whatever the timestamp parser would make of the string. *)
Theorem empty_lastSeen_like_absent (E E' : Environment) (now now' : Z)
    (pre : list raw_device) (dev : raw_device) (post : list raw_device)
    (tick : nat) (built : snapshot) (device_id : string) :
  build_current_devices (H := E) (pre ++ dev :: post) tick [] = Return built ->
  dev !! "id" = Some device_id ->
  Forall (fun dev' => dev' !! "id" <> Some device_id) post ->
  dev !! "lastSeen" = None ->
  (exists e, PyDict.get device_id built = Some e /\ lastSeen e = "")
  /\ is_device_online (H := E) now dev = false
  /\ is_device_online (H := E') now' (<["lastSeen" := ""]> dev) = false.
Proof.
  intros Hb Hid Hpost Habs. split; [| split].
  - eexists. split; [by apply (build_get_last _ _ _ _ _ _ _ Hb) |].
    cbn [device_entry lastSeen]. by rewrite Habs.
  - by apply is_device_online_absent.
  - apply is_device_online_empty. apply lookup_insert_eq.
Qed.

(** * Witnesses and counterexamples *)

Section Instances.
Import Scenario.

Local Ltac dict_wf := unfold PyDict.wf, PyDict.keys; apply (bool_decide_unpack _); vm_compute; exact I.

(** C1, as stated, fails: with a record without an id in the payload no
    state map is produced, so none with an entry for the valid record. *)
Lemma missing_id_not_skipped :
  ~ (exists built,
        build_current_devices (H := env 0) [no_id; valid] 0 [] = Return built
        /\ PyDict.keys built = ["n2"])
  /\ check_devices (H := env 0) (Some [no_id; valid]) [] = Raise (KeyError "id").
Proof.
  split; [| by vm_compute].
  intros (built & Hb & _). vm_compute in Hb. discriminate Hb.
Qed.

Lemma missing_id_aborts_batch_witness :
  Exists (fun dev : raw_device => dev !! "id" = None) [no_id; valid]
  /\ ((forall tick cur,
         build_current_devices (H := env 0) [no_id; valid] tick cur = Raise (KeyError "id"))
      /\ check_devices (H := env 0) (Some [no_id; valid]) previous5 = Raise (KeyError "id")
      /\ exists title parts body,
           send_initial_status (H := env 0) (Some [no_id; valid])
           = Some (title, parts, body, Raise (KeyError "id"))).
Proof.
  assert (Hex : Exists (fun dev : raw_device => dev !! "id" = None) [no_id; valid])
    by (apply Exists_cons_hd; reflexivity).
  split; [exact Hex |].
  exact (missing_id_aborts_batch (H := env 0) [no_id; valid] previous5 Hex).
Defined.

Lemma detect_changes_self_witness :
  PyDict.wf current5 /\ detect_changes current5 current5 = [].
Proof.
  assert (Hwf : PyDict.wf current5) by dict_wf.
  split; [exact Hwf | exact (detect_changes_self current5 Hwf)].
Defined.

Lemma detect_changes_complete_witness :
  PyDict.wf current5 /\ PyDict.wf previous5
  /\ ((detect_changes_traced current5 previous5).*2 = detect_changes current5 previous5
      /\ (length (changes_of "B" (detect_changes_traced current5 previous5)) <= 1)%nat
      /\ (differs "B" current5 previous5
          <-> length (changes_of "B" (detect_changes_traced current5 previous5)) = 1%nat)).
Proof.
  assert (Hc : PyDict.wf current5) by dict_wf.
  assert (Hp : PyDict.wf previous5) by dict_wf.
  split; [exact Hc |]. split; [exact Hp |].
  exact (detect_changes_complete current5 previous5 "B" Hc Hp).
Defined.

(** C5, as stated, fails.  With a threshold of 86400000000000 seconds no
    time has passed since the heartbeat, which is below the threshold, and
    the device is offline: the threshold's [timedelta] does not exist.
    With the default threshold a heartbeat written without UTC offset is
    parsable and, read as UTC, is equally recent, and the device is
    offline. *)
Lemma threshold_claim_fails :
  (valid !! "lastSeen" = Some "1970-01-01T00:01:00Z"
   /\ fromisoformat (Environment := beyond_timedelta)
        (replace "Z" "+00:00" "1970-01-01T00:01:00Z") = Some (Aware 60000000)
   /\ 60000000 - 60000000 < ONLINE_THRESHOLD_SECONDS (Environment := beyond_timedelta) * 1000000
   /\ is_device_online (H := beyond_timedelta) 60000000 valid = false
   /\ ~ (is_device_online (H := beyond_timedelta) 60000000 valid = true
         <-> 60000000 - 60000000
             < ONLINE_THRESHOLD_SECONDS (Environment := beyond_timedelta) * 1000000))
  /\ (unzoned !! "lastSeen" = Some "1970-01-01T00:01:00"
      /\ fromisoformat (Environment := env 0)
           (replace "Z" "+00:00" "1970-01-01T00:01:00") = Some (Naive 60000000)
      /\ 60000000 - 60000000 < ONLINE_THRESHOLD_SECONDS (Environment := env 0) * 1000000
      /\ is_device_online (H := env 0) 60000000 unzoned = false
      /\ ~ (is_device_online (H := env 0) 60000000 unzoned = true
            <-> 60000000 - 60000000
                < ONLINE_THRESHOLD_SECONDS (Environment := env 0) * 1000000)).
Proof.
  split.
  - split; [reflexivity |]. split; [reflexivity |]. split; [reflexivity |].
    split; [reflexivity |]. intros [_ Hclaim].
    assert (Hon : is_device_online (H := beyond_timedelta) 60000000 valid = true)
      by (apply Hclaim; reflexivity).
    vm_compute in Hon. discriminate Hon.
  - split; [reflexivity |]. split; [reflexivity |]. split; [reflexivity |].
    split; [reflexivity |]. intros [_ Hclaim].
    assert (Hon : is_device_online (H := env 0) 60000000 unzoned = true)
      by (apply Hclaim; reflexivity).
    vm_compute in Hon. discriminate Hon.
Qed.

(** At exactly sixty seconds after the last heartbeat, with the threshold at
    sixty seconds, the device is offline. *)
Lemma is_device_online_threshold_witness :
  valid !! "lastSeen" = Some "1970-01-01T00:01:00Z"
  /\ fromisoformat (Environment := env 0) (replace "Z" "+00:00" "1970-01-01T00:01:00Z")
     = Some (Aware 60000000)
  /\ is_device_online (H := env 0) 120000000 valid = false
  /\ is_device_online (H := env 0) 119999999 valid = true
  /\ is_device_online (H := env 0) 0 valid = true.
Proof.
  assert (Hseen : valid !! "lastSeen" = Some "1970-01-01T00:01:00Z") by reflexivity.
  assert (Hparse : fromisoformat (Environment := env 0)
                     (replace "Z" "+00:00" "1970-01-01T00:01:00Z")
                   = Some (Aware 60000000)) by reflexivity.
  assert (Hne : "1970-01-01T00:01:00Z" <> "") by discriminate.
  assert (Hrange : -999999999 <= ONLINE_THRESHOLD_SECONDS (Environment := env 0) / 86400
                   <= 999999999) by (split; discriminate).
  split; [exact Hseen |]. split; [exact Hparse |].
  split; [| split].
  - destruct (is_device_online_threshold (H := env 0) 120000000 valid _ _ Hseen Hne Hparse)
      as (_ & Hin & _).
    destruct (Hin 60000000 eq_refl Hrange) as (Hboundary & _). apply Hboundary. reflexivity.
  - destruct (is_device_online_threshold (H := env 0) 119999999 valid _ _ Hseen Hne Hparse)
      as (_ & Hin & _).
    destruct (Hin 60000000 eq_refl Hrange) as (_ & Hbelow & _). apply Hbelow. reflexivity.
  - destruct (is_device_online_threshold (H := env 0) 0 valid _ _ Hseen Hne Hparse)
      as (_ & Hin & _).
    destruct (Hin 60000000 eq_refl Hrange) as (_ & _ & Hfuture).
    apply Hfuture; [reflexivity | discriminate].
Defined.

Lemma is_device_online_fails_closed_witness :
  (garbled !! "lastSeen" = None
   \/ exists last_seen, garbled !! "lastSeen" = Some last_seen
        /\ fromisoformat (Environment := env 0) (replace "Z" "+00:00" last_seen) = None)
  /\ is_device_online (H := env 0) 0 garbled = false
  /\ is_device_online (H := env 0) 0 bare = false.
Proof.
  assert (Hg : garbled !! "lastSeen" = None
               \/ exists last_seen, garbled !! "lastSeen" = Some last_seen
                    /\ fromisoformat (Environment := env 0)
                         (replace "Z" "+00:00" last_seen) = None).
  { right. exists "yesterday". split; reflexivity. }
  split; [exact Hg |]. split.
  - exact (is_device_online_fails_closed (H := env 0) 0 garbled Hg).
  - apply (is_device_online_fails_closed (H := env 0) 0 bare). left. reflexivity.
Defined.

(** C7, as stated, fails: a record whose ['name'] is present and empty gets
    its hostname as name. *)
Lemma empty_name_uses_hostname :
  empty_name !! "name" = Some ""
  /\ spec_name empty_name = ""
  /\ build_current_devices (H := env 0) [empty_name] 0 []
     = Return [("n3", {| name := "host3"; online := false; lastSeen := "" |})]
  /\ ~ (forall built e,
          build_current_devices (H := env 0) [empty_name] 0 [] = Return built ->
          PyDict.get "n3" built = Some e ->
          name e = spec_name empty_name).
Proof.
  split; [reflexivity |]. split; [reflexivity |]. split; [by vm_compute |].
  intros Hclaim.
  specialize (Hclaim [("n3", {| name := "host3"; online := false; lastSeen := "" |})]
                     {| name := "host3"; online := false; lastSeen := "" |}).
  discriminate Hclaim; by vm_compute.
Qed.

Lemma build_current_devices_last_write_wins_witness :
  Forall (fun dev : raw_device => is_Some (dev !! "id")) [first_n1; second_n1; empty_name]
  /\ exists built,
       build_current_devices (H := env 0) [first_n1; second_n1; empty_name] 0 [] = Return built
       /\ PyDict.wf built
       /\ (exists e, PyDict.get "n1" built = Some e /\ name e = "beta")
       /\ (exists e, PyDict.get "n3" built = Some e /\ name e = "host3").
Proof.
  assert (Hall : Forall (fun dev : raw_device => is_Some (dev !! "id"))
                   [first_n1; second_n1; empty_name]).
  { repeat constructor; eexists; reflexivity. }
  split; [exact Hall |].
  destruct (build_current_devices_last_write_wins (H := env 0) _ 0%nat Hall)
    as (built & Hb & Hwf & _ & Hlast).
  exists built. split; [exact Hb |]. split; [exact Hwf |]. split.
  - destruct (Hlast [first_n1] second_n1 [empty_name] "n1" eq_refl eq_refl)
      as (e & He & _ & Hname & _).
    + repeat constructor. discriminate.
    + exists e. split; [exact He |]. apply Hname; [reflexivity | discriminate].
  - destruct (Hlast [first_n1; second_n1] empty_name [] "n3" eq_refl eq_refl)
      as (e & He & _ & _ & Hhost & _).
    + constructor.
    + exists e. split; [exact He |]. apply Hhost; [right; reflexivity | reflexivity].
Defined.

(** C8, as stated, fails: with two records under one id the report counts
    and lists both, while the state map holds one entry; the report is not
    the one the specification computes from the state map. *)
Lemma report_counts_records :
  exists title parts body built,
    send_initial_status (H := env 0) (Some [first_n1; second_n1])
    = Some (title, parts, body, Return built)
    /\ parts !! 0%nat = Some "Total Devices: 2"
    /\ "  • alpha" ∈ parts
    /\ length built = 1%nat
    /\ name <$> built.*2 = ["beta"]
    /\ parts <> formatReport (H := env 0) built.
Proof.
  eexists _, _, _, _. split; [by vm_compute |].
  split; [reflexivity |]. split; [| split; [reflexivity | split; [reflexivity |]]].
  - do 6 apply list_elem_of_further. apply list_elem_of_here.
  - vm_compute. discriminate.
Qed.

Lemma empty_lastSeen_like_absent_witness :
  build_current_devices (H := env 0) ([] ++ bare :: [valid]) 0 []
  = Return [("n4", {| name := "Unknown"; online := false; lastSeen := "" |});
            ("n2", {| name := "phone"; online := true;
                      lastSeen := "1970-01-01T00:01:00Z" |})]
  /\ bare !! "lastSeen" = None
  /\ ((exists e,
         PyDict.get "n4"
           [("n4", {| name := "Unknown"; online := false; lastSeen := "" |});
            ("n2", {| name := "phone"; online := true;
                      lastSeen := "1970-01-01T00:01:00Z" |})] = Some e
         /\ lastSeen e = "")
      /\ is_device_online (H := env 0) 0 bare = false
      /\ is_device_online (H := lenient) 0 (<["lastSeen" := ""]> bare) = false).
Proof.
  assert (Hb : build_current_devices (H := env 0) ([] ++ bare :: [valid]) 0 []
               = Return [("n4", {| name := "Unknown"; online := false; lastSeen := "" |});
                         ("n2", {| name := "phone"; online := true;
                                   lastSeen := "1970-01-01T00:01:00Z" |})])
    by (by vm_compute).
  assert (Habs : bare !! "lastSeen" = None) by reflexivity.
  split; [exact Hb |]. split; [exact Habs |].
  apply (empty_lastSeen_like_absent (env 0) lenient 0 0 [] bare [valid] 0%nat _ "n4" Hb).
  - reflexivity.
  - repeat constructor. discriminate.
  - exact Habs.
Defined.

End Instances.

(** * Further properties of the code *)

(** ** Change detection *)

Lemma detect_changes_prev_nil (current : snapshot) :
  detect_changes current []
  = (fun item : string * entry =>
       {| device := name item.2; status := status_of (online item.2); type := new |})
    <$> current.
Proof.
  rewrite <- detect_changes_erase, detect_changes_traced_spec. unfold spec_diff.
  cbn [omap list_omap]. rewrite app_nil_r.
  induction current as [|item current IH]; [done |].
  cbn [omap list_omap]. unfold spec_step1 at 1. cbn [PyDict.get].
  by rewrite !fmap_cons, IH.
Qed.

(** With no previous state, because the state file is missing or cannot be
    read, every entry of the current map is reported as new, in the order
    of the map, and nothing else is reported. *)
Theorem detect_changes_first_run (current : snapshot) :
  let all_new :=
    (fun item : string * entry =>
       {| device := name item.2; status := status_of (online item.2); type := new |})
    <$> current in
  detect_changes current (load_previous_state Missing) = all_new
  /\ detect_changes current (load_previous_state Unreadable) = all_new.
Proof.
  intros all_new. split; apply detect_changes_prev_nil.
Qed.

(** With an empty payload every entry of the previous map is reported as
    removed, under its stored name and in the order of the previous map. *)
Theorem detect_changes_all_removed (previous : snapshot) :
  detect_changes [] previous
  = (fun item : string * entry =>
       {| device := name item.2; status := removed_; type := removed |}) <$> previous.
Proof.
  rewrite <- detect_changes_erase, detect_changes_traced_spec. unfold spec_diff.
  cbn [omap list_omap app].
  induction previous as [|item previous IH]; [done |].
  cbn [omap list_omap]. unfold spec_step2 at 1.
  rewrite bool_decide_eq_false_2 by apply not_elem_of_nil.
  by rewrite !fmap_cons, IH.
Qed.

(** What is reported about one id: nothing when it is in neither map or in
    both with equal flags; a change carrying the current name and flag when
    the flags differ; a new device carrying the current name and flag when
    it is only in the current map; a removal carrying the stored name when
    it is only in the previous map. *)
Theorem detect_changes_per_id (current previous : snapshot) (device_id : string) :
  PyDict.wf current -> PyDict.wf previous ->
  changes_of device_id (detect_changes_traced current previous)
  = match PyDict.get device_id current, PyDict.get device_id previous with
    | Some cur, Some prev =>
        if bool_decide (online prev = online cur) then []
        else [ {| device := name cur; status := status_of (online cur); type := changed |} ]
    | Some cur, None =>
        [ {| device := name cur; status := status_of (online cur); type := new |} ]
    | None, Some prev =>
        [ {| device := name prev; status := removed_; type := removed |} ]
    | None, None => []
    end.
Proof.
  intros Hc Hp. rewrite detect_changes_traced_spec. by apply changes_of_spec_diff.
Qed.

Lemma changes_of_nil (device_id : string) : changes_of device_id [] = [].
Proof. done. Qed.

Lemma spec_diff_no_change (current previous : snapshot) :
  PyDict.wf current -> PyDict.wf previous ->
  (forall device_id,
     online <$> PyDict.get device_id current = online <$> PyDict.get device_id previous) ->
  spec_diff current previous = [].
Proof.
  intros Hc Hp Hsame. unfold spec_diff. rewrite !omap_all_None; [done | |].
  - intros [k e] Hin. unfold spec_step2. cbn [fst].
    pose proof (Hsame k) as Hk. rewrite (get_wf_elem _ _ _ Hp Hin) in Hk.
    destruct (PyDict.get k current) as [cur|] eqn:Hg; [| done].
    apply get_Some_keys in Hg. by rewrite bool_decide_eq_true_2.
  - intros [k e] Hin. unfold spec_step1. cbn [fst snd].
    pose proof (Hsame k) as Hk. rewrite (get_wf_elem _ _ _ Hc Hin) in Hk.
    destruct (PyDict.get k previous) as [prev|]; [| done].
    injection Hk as Hk. by rewrite bool_decide_eq_true_2.
Qed.

(** Nothing is reported exactly when the two maps have the same ids with
    the same online flags. *)
Theorem detect_changes_nil_iff (current previous : snapshot) :
  PyDict.wf current -> PyDict.wf previous ->
  detect_changes current previous = []
  <-> forall device_id,
        online <$> PyDict.get device_id current = online <$> PyDict.get device_id previous.
Proof.
  intros Hc Hp. split.
  - intros Hnil device_id.
    assert (Htr : detect_changes_traced current previous = []).
    { apply (fmap_nil_inv snd). by rewrite detect_changes_erase. }
    pose proof (changes_of_spec_diff current previous device_id Hc Hp) as Hid.
    rewrite <- detect_changes_traced_spec, Htr, changes_of_nil in Hid.
    destruct (PyDict.get device_id current) as [cur|],
             (PyDict.get device_id previous) as [prev|]; try done.
    case_bool_decide as Heq; [| done]. cbn. by rewrite Heq.
  - intros Hsame. rewrite <- detect_changes_erase, detect_changes_traced_spec.
    by rewrite spec_diff_no_change.
Qed.

(** Comparing the two maps the other way round turns every new device into
    a removal and every removal into a new device, and keeps the status
    changes, which then carry the other flag. *)
Theorem detect_changes_swap (current previous : snapshot) (device_id : string) :
  PyDict.wf current -> PyDict.wf previous ->
  (fun c => opposite (type c)) <$> changes_of device_id (detect_changes_traced current previous)
  = type <$> changes_of device_id (detect_changes_traced previous current)
  /\ Forall (fun c => type c = changed ->
                      Forall (fun c' => status c' <> status c)
                        (changes_of device_id (detect_changes_traced previous current)))
            (changes_of device_id (detect_changes_traced current previous)).
Proof.
  intros Hc Hp. rewrite !detect_changes_traced_spec.
  rewrite (changes_of_spec_diff current previous), (changes_of_spec_diff previous current)
    by done.
  destruct (PyDict.get device_id current) as [cur|],
           (PyDict.get device_id previous) as [prev|]; cbn; try by repeat constructor.
  destruct (online cur) eqn:Hoc, (online prev) eqn:Hop; cbn; by repeat constructor.
Qed.

(** A removal and nothing else has the status [removed]; the status of a
    new or changed device is the flag it has now. *)
Theorem detect_changes_status (current previous : snapshot) :
  Forall (fun c => match type c with
                   | removed => status c = removed_
                   | new | changed => status c = online_ \/ status c = offline_
                   end)
         (detect_changes current previous).
Proof.
  rewrite <- detect_changes_erase, detect_changes_traced_spec. unfold spec_diff.
  rewrite fmap_app. apply Forall_app.
  split; apply Forall_fmap, Forall_forall; intros p Hin;
    apply list_elem_of_omap in Hin as (item & _ & Hstep); cbn.
  - unfold spec_step1 in Hstep. destruct (PyDict.get item.1 previous).
    + case_bool_decide; [done |]. injection Hstep as <-. cbn.
      destruct (online item.2); auto.
    + injection Hstep as <-. cbn. destruct (online item.2); auto.
  - unfold spec_step2 in Hstep. case_bool_decide; [done |]. by injection Hstep as <-.
Qed.

(** ** The builder *)

Section BuilderMore.
Context `{Environment}.
Implicit Types (devices : list raw_device) (tick : nat) (cur : snapshot).

Lemma set_fresh cur (k : string) (e : entry) :
  k ∉ PyDict.keys cur -> PyDict.set k e cur = (cur ++ [(k, e)])%list.
Proof.
  unfold PyDict.keys. induction cur as [|[k' e'] cur IH]; [done |].
  rewrite fmap_cons, not_elem_of_cons. cbn [fst PyDict.set]. intros [Hne Hnotin].
  rewrite decide_False by done. by rewrite IH.
Qed.

Lemma build_keys_order devices tick cur built :
  build_current_devices devices tick cur = Return built ->
  PyDict.keys built
  = (PyDict.keys cur
     ++ filter (fun k => k ∉ PyDict.keys cur) (first_occurrences (payload_ids devices)))%list.
Proof.
  revert tick cur. induction devices as [|dev devices IH]; intros tick cur.
  - intros [= <-]. cbn. by rewrite app_nil_r.
  - cbn [build_current_devices]. unfold payload_ids. cbn [omap list_omap].
    destruct (dev !! "id") as [k|] eqn:Hid; [| done].
    fold (payload_ids devices). cbn [first_occurrences].
    intros Hb. rewrite (IH _ _ Hb), keys_set, mem_keys.
    case_bool_decide as Hin.
    + rewrite filter_cons_False by (intros Hn; by apply Hn).
      f_equal. rewrite list_filter_filter. apply list_filter_iff.
      intros x. split; [| by intros [? _]].
      intros Hx. split; [done |]. by intros ->.
    + rewrite filter_cons_True by done. rewrite <- app_assoc. cbn [app]. do 2 f_equal.
      rewrite list_filter_filter. apply list_filter_iff.
      intros x. rewrite not_elem_of_app, list_elem_of_singleton. tauto.
Qed.

Lemma length_first_occurrences (ids : list string) :
  (length (first_occurrences ids) <= length ids)%nat.
Proof.
  induction ids as [|k ids IH]; [done |]. cbn.
  pose proof (length_filter (fun k' => k' <> k) (first_occurrences ids)). lia.
Qed.

Lemma length_payload_ids devices : (length (payload_ids devices) <= length devices)%nat.
Proof.
  unfold payload_ids. induction devices as [|dev devices IH]; [done |].
  cbn [omap list_omap]. destruct (dev !! "id"); cbn; lia.
Qed.

(** The keys of the built map are the ids of the payload in the order of
    their first occurrence, so the map is never larger than the payload. *)
Theorem build_current_devices_key_order devices tick built :
  build_current_devices devices tick [] = Return built ->
  PyDict.keys built = first_occurrences (payload_ids devices)
  /\ (length built <= length devices)%nat.
Proof.
  intros Hb. assert (Hk : PyDict.keys built = first_occurrences (payload_ids devices)).
  { rewrite (build_keys_order _ _ _ _ Hb). cbn [app PyDict.keys fmap list_fmap].
    induction (first_occurrences (payload_ids devices)) as [|x l IHl]; [done |].
    rewrite filter_cons_True by apply not_elem_of_nil. by rewrite IHl. }
  split; [exact Hk |].
  replace (length built) with (length (PyDict.keys built))
    by (unfold PyDict.keys; apply length_fmap).
  rewrite Hk. pose proof (length_first_occurrences (payload_ids devices)).
  pose proof (length_payload_ids devices). lia.
Qed.

Lemma build_distinct devices tick cur :
  Forall (fun dev => is_Some (dev !! "id")) devices ->
  NoDup (PyDict.keys cur ++ payload_ids devices) ->
  build_current_devices devices tick cur
  = Return (cur ++ payload_entries devices tick)%list.
Proof.
  intros Hall. revert tick cur.
  induction Hall as [|dev devices [k Hid] _ IH]; intros tick cur Hnd.
  - cbn. by rewrite app_nil_r.
  - cbn [build_current_devices payload_entries]. rewrite Hid. cbn [default].
    unfold payload_ids in Hnd. cbn [omap list_omap] in Hnd. rewrite Hid in Hnd.
    fold (payload_ids devices) in Hnd.
    assert (Hfresh : k ∉ PyDict.keys cur).
    { apply NoDup_app in Hnd as (_ & Hdisj & _). intros Hin.
      apply (Hdisj k Hin). apply list_elem_of_here. }
    rewrite set_fresh by done. rewrite IH.
    + by rewrite <- app_assoc.
    + unfold PyDict.keys in *. rewrite fmap_app, <- app_assoc. exact Hnd.
Qed.

(** When every record has an id and no id occurs twice, the built map is
    the payload itself in payload order: one entry per record, under the
    record's id. *)
Theorem build_current_devices_distinct devices tick :
  Forall (fun dev => is_Some (dev !! "id")) devices ->
  NoDup (payload_ids devices) ->
  build_current_devices devices tick [] = Return (payload_entries devices tick).
Proof. intros Hall Hnd. by rewrite build_distinct. Qed.

Lemma device_entry_ok now dev : entry_ok (device_entry now dev).
Proof.
  unfold entry_ok. cbn [device_entry lastSeen online].
  destruct (dev !! "lastSeen") as [last_seen|] eqn:Hseen; simpl.
  - intros ->. by apply is_device_online_empty.
  - intros _. by apply is_device_online_absent.
Qed.

Lemma build_entries_ok devices tick cur built :
  PyDict.wf cur -> Forall (fun item => entry_ok item.2) cur ->
  build_current_devices devices tick cur = Return built ->
  PyDict.wf built /\ Forall (fun item => entry_ok item.2) built.
Proof.
  intros Hwf Hok Hb. pose proof (build_wf _ _ _ _ Hwf Hb) as Hwfb.
  split; [done |]. apply Forall_forall. intros [k e] Hin. cbn [snd].
  apply (get_wf_elem _ _ _ Hwfb) in Hin.
  destruct (build_get_inv _ _ _ _ _ _ Hb Hin) as [Hcur|(i & dev & _ & _ & ->)].
  - apply get_Some_elem in Hcur. by apply (proj1 (Forall_forall _ _) Hok (k, e)).
  - apply device_entry_ok.
Qed.

(** In every map the builder returns, the keys are distinct and an entry
    whose stored [lastSeen] is the empty string is offline. *)
Theorem build_current_devices_invariant devices tick built :
  build_current_devices devices tick [] = Return built ->
  PyDict.wf built /\ Forall (fun item => entry_ok item.2) built.
Proof. apply build_entries_ok; [apply wf_nil | constructor]. Qed.

End BuilderMore.

(** ** The classifier *)

Section ClassifierMore.
Context `{Environment}.

Lemma is_device_online_true_inv (now : Z) (dev : raw_device) :
  is_device_online now dev = true ->
  exists last_seen t,
    dev !! "lastSeen" = Some last_seen /\ last_seen <> ""
    /\ fromisoformat (replace "Z" "+00:00" last_seen) = Some (Aware t)
    /\ -999999999 <= ONLINE_THRESHOLD_SECONDS / 86400 <= 999999999
    /\ now - t < ONLINE_THRESHOLD_SECONDS * 1000000.
Proof.
  unfold is_device_online, is_device_online_try, timedelta.
  destruct (dev !! "lastSeen") as [last_seen|]; [| done].
  destruct last_seen as [|a rest]; [done |]. cbn [truthy negb].
  destruct (fromisoformat _) as [[t|wall]|] eqn:Hparse; cbn; try done.
  case_bool_decide as Hrange; [| done].
  intros Hon. apply bool_decide_eq_true in Hon.
  exists (String a rest), t. split; [done |]. split; [done |]. split; [done |].
  split; [exact Hrange | exact Hon].
Qed.

(** A device is classified online only on the strength of a non-empty
    [lastSeen] that the parser turns into an instant less than the
    threshold before [now], the threshold being one [timedelta] can
    hold. *)
Theorem is_device_online_sound (now : Z) (dev : raw_device) :
  is_device_online now dev = true ->
  exists last_seen t,
    dev !! "lastSeen" = Some last_seen /\ last_seen <> ""
    /\ fromisoformat (replace "Z" "+00:00" last_seen) = Some (Aware t)
    /\ -999999999 <= ONLINE_THRESHOLD_SECONDS / 86400 <= 999999999
    /\ now - t < ONLINE_THRESHOLD_SECONDS * 1000000.
Proof. apply is_device_online_true_inv. Qed.

(** Staleness only grows with time: a device that is online at some
    instant is online at every earlier instant. *)
Theorem is_device_online_earlier (now now' : Z) (dev : raw_device) :
  now <= now' -> is_device_online now' dev = true -> is_device_online now dev = true.
Proof.
  intros Hle Hon.
  destruct (is_device_online_true_inv _ _ Hon) as (s & t & Hseen & Hne & Hparse & Hrange & Hlt).
  rewrite (is_device_online_aware _ _ _ _ Hseen Hne Hparse).
  rewrite (bool_decide_eq_true_2 _ Hrange). apply bool_decide_eq_true. lia.
Qed.

(** With a threshold of zero or less, a device whose last heartbeat is not
    in the future is offline. *)
Theorem is_device_online_no_window (now : Z) (dev : raw_device) (last_seen : string) (t : Z) :
  ONLINE_THRESHOLD_SECONDS <= 0 ->
  dev !! "lastSeen" = Some last_seen ->
  fromisoformat (replace "Z" "+00:00" last_seen) = Some (Aware t) ->
  t <= now ->
  is_device_online now dev = false.
Proof.
  intros HT Hseen Hparse Hpast.
  destruct (is_device_online now dev) eqn:Hon; [| done].
  destruct (is_device_online_true_inv _ _ Hon) as (s & t' & Hseen' & _ & Hparse' & _ & Hlt).
  rewrite Hseen in Hseen'. injection Hseen' as <-.
  rewrite Hparse in Hparse'. injection Hparse' as <-.
  lia.
Qed.

Lemma str_app_assoc (s1 s2 s3 : string) : (s1 +:+ s2) +:+ s3 = s1 +:+ (s2 +:+ s3).
Proof.
  induction s1 as [|a s1 IH]; [done |].
  change (String a ((s1 +:+ s2) +:+ s3) = String a (s1 +:+ (s2 +:+ s3))). by rewrite IH.
Qed.

Lemma replace_app (c : ascii) (by_ s1 s2 : string) :
  replace c by_ (s1 +:+ s2) = replace c by_ s1 +:+ replace c by_ s2.
Proof.
  induction s1 as [|a s1 IH]; [done |].
  change (String a s1 +:+ s2) with (String a (s1 +:+ s2)). cbn [replace].
  rewrite IH. destruct (Ascii.eqb a c); [| done].
  by rewrite str_app_assoc.
Qed.

Lemma replace_Z_idemp (s : string) :
  replace "Z" "+00:00" (replace "Z" "+00:00" s) = replace "Z" "+00:00" s.
Proof.
  induction s as [|a s IH]; [done |]. cbn [replace].
  destruct (Ascii.eqb a "Z") eqn:Ha.
  - by rewrite replace_app, IH.
  - cbn [replace]. by rewrite Ha, IH.
Qed.

Lemma truthy_replace_Z (s : string) : truthy (replace "Z" "+00:00" s) = truthy s.
Proof. destruct s as [|a s]; [done |]. cbn [replace]. by destruct (Ascii.eqb a "Z"). Qed.

(** Writing the UTC designator as [Z] or as [+00:00] makes no difference:
    a record is classified the same when every [Z] of its [lastSeen] is
    already spelled [+00:00]. *)
Theorem is_device_online_Z_suffix (now : Z) (dev : raw_device) (last_seen : string) :
  is_device_online now (<["lastSeen" := replace "Z" "+00:00" last_seen]> dev)
  = is_device_online now (<["lastSeen" := last_seen]> dev).
Proof.
  unfold is_device_online, is_device_online_try.
  by rewrite !lookup_insert_eq, truthy_replace_Z, replace_Z_idemp.
Qed.
(** A [lastSeen] that parses to a time without UTC offset makes the
    device offline at every instant: the subtraction from the current time
    raises, and the handler answers false. *)
Theorem is_device_online_naive_offline (now : Z) (dev : raw_device) (last_seen : string)
    (wall : Z) :
  dev !! "lastSeen" = Some last_seen ->
  fromisoformat (replace "Z" "+00:00" last_seen) = Some (Naive wall) ->
  is_device_online now dev = false
  /\ is_device_online_try now last_seen = Raise TypeError.
Proof.
  intros Hseen Hparse. split; [by apply (is_device_online_naive _ _ last_seen wall) |].
  unfold is_device_online_try. by rewrite Hparse.
Qed.
End ClassifierMore.

(** ** The report *)

Lemma ascii_compare_refl (a : ascii) : Ascii.compare a a = Eq.
Proof. apply N.compare_refl. Qed.

Lemma ascii_compare_lt_trans (a b c : ascii) :
  Ascii.compare a b = Lt -> Ascii.compare b c = Lt -> Ascii.compare a c = Lt.
Proof. unfold Ascii.compare. rewrite !N.compare_lt_iff. apply N.lt_trans. Qed.

#[global] Instance str_le_trans : Transitive str_le.
Proof.
  unfold str_le, String.leb. intros s1.
  induction s1 as [|a s1 IH]; intros [|b s2] [|c s3]; cbn [String.compare]; try done.
  destruct (Ascii.compare a b) eqn:Hab; [| | done].
  - apply Ascii.compare_eq_iff in Hab as ->.
    destruct (Ascii.compare b c) eqn:Hbc; [apply IH | done | done].
  - destruct (Ascii.compare b c) eqn:Hbc; [| | done].
    + apply Ascii.compare_eq_iff in Hbc as <-. by rewrite Hab.
    + by rewrite (ascii_compare_lt_trans _ _ _ Hab Hbc).
Qed.

#[global] Instance str_le_antisym : AntiSymm (=) str_le.
Proof. intros s1 s2. apply String.leb_antisym. Qed.

(** Sorting forgets the order of its input. *)
Lemma sorted_Permutation_eq (l1 l2 : list string) : l1 ≡ₚ l2 -> sorted l1 = sorted l2.
Proof.
  intros Hperm. apply (Sorted_unique str_le); [apply sorted_Sorted | apply sorted_Sorted |].
  by rewrite !sorted_Permutation.
Qed.

Lemma device_lines_sorted (names : list string) :
  device_lines names
  = match sorted names with
    | [] => ["  (none)"]
    | _ :: _ => (fun dev => "  • " +:+ dev) <$> sorted names
    end.
Proof.
  pose proof (sorted_Permutation names) as Hperm. destruct names as [|n names].
  - apply Permutation_nil_r in Hperm. by rewrite Hperm.
  - cbn [device_lines]. destruct (sorted (n :: names)) eqn:Hs; [| done].
    by apply Permutation_nil_cons in Hperm.
Qed.

Lemma device_lines_Permutation (l1 l2 : list string) :
  l1 ≡ₚ l2 -> device_lines l1 = device_lines l2.
Proof. intros Hperm. by rewrite !device_lines_sorted, (sorted_Permutation_eq _ _ Hperm). Qed.

Lemma device_lines_elem (names : list string) (n : string) :
  n ∈ names -> "  • " +:+ n ∈ device_lines names.
Proof.
  intros Hin. rewrite device_lines_sorted.
  assert (Hs : n ∈ sorted names) by by rewrite sorted_Permutation.
  destruct (sorted names) as [|x l] eqn:Hsorted; [by apply elem_of_nil in Hs |].
  by apply (list_elem_of_fmap_2 (fun dev => "  • " +:+ dev)).
Qed.

Section ReportMore.
Context `{Environment}.

Lemma body_parts_Permutation (on on' off off' : list string) :
  on ≡ₚ on' -> off ≡ₚ off' -> body_parts on off = body_parts on' off'.
Proof.
  intros Hon Hoff. unfold body_parts.
  by rewrite (device_lines_Permutation _ _ Hon), (device_lines_Permutation _ _ Hoff),
    (Permutation_length Hon), (Permutation_length Hoff).
Qed.

Lemma classify_elem (devices : list raw_device) (tick : nat) (dev : raw_device) :
  dev ∈ devices -> exists b, (device_name dev, b) ∈ classify devices tick.
Proof.
  revert tick. induction devices as [|dev' devices IH]; intros tick Hin.
  - by apply elem_of_nil in Hin.
  - cbn [classify]. apply elem_of_cons in Hin as [->|Hin].
    + eexists. apply list_elem_of_here.
    + destruct (IH (S tick) Hin) as [b Hb]. exists b. by apply list_elem_of_further.
Qed.

(** Every record of the payload is listed: its display name is a bullet
    line of the report, also for a record without an id. *)
Theorem status_report_lists_every_record (devices : list raw_device) (dev : raw_device) :
  dev ∈ devices -> "  • " +:+ device_name dev ∈ (status_report devices).2.
Proof.
  intros Hin. unfold status_report. rewrite partition_devices_classify. cbn [app snd].
  destruct (classify_elem devices 0 dev Hin) as [b Hb]. unfold body_parts.
  destruct b.
  - apply elem_of_app. right. apply elem_of_app. left. apply device_lines_elem.
    apply (list_elem_of_fmap_2' fst _ (device_name dev, true)); [| done].
    by apply list_elem_of_filter.
  - do 3 (apply elem_of_app; right). apply elem_of_app. left. apply device_lines_elem.
    apply (list_elem_of_fmap_2' fst _ (device_name dev, false)); [| done].
    by apply list_elem_of_filter.
Qed.

Lemma classify_steady (devices : list raw_device) (tick : nat) :
  (forall i j, clock i = clock j) ->
  classify devices tick
  = (fun dev => (device_name dev, is_device_online (clock 0) dev)) <$> devices.
Proof.
  intros Hclock. revert tick. induction devices as [|dev devices IH]; intros tick; [done |].
  cbn [classify]. by rewrite fmap_cons, IH, (Hclock tick 0%nat).
Qed.

(** While the clock stands still, the report does not depend on the order
    of the records in the payload. *)
Theorem status_report_order_independent (devices devices' : list raw_device) :
  (forall i j, clock i = clock j) ->
  devices ≡ₚ devices' ->
  status_report devices = status_report devices'.
Proof.
  intros Hclock Hperm. unfold status_report.
  rewrite !partition_devices_classify, !classify_steady by done. cbn [app].
  f_equal. apply body_parts_Permutation; by rewrite Hperm.
Qed.

Lemma payload_entries_classify (devices : list raw_device) (tick tick' : nat) (b : bool) :
  (forall i j, clock i = clock j) ->
  name <$> filter (fun e => online e = b) (payload_entries devices tick).*2
  = (filter (fun p => p.2 = b) (classify devices tick')).*1.
Proof.
  intros Hclock. revert tick tick'.
  induction devices as [|dev devices IH]; intros tick tick'; [done |].
  cbn [payload_entries classify]. rewrite fmap_cons. cbn [snd].
  rewrite !filter_cons. cbn [device_entry online snd]. rewrite (Hclock tick tick').
  case_decide; rewrite ?fmap_cons; cbn [device_entry name fst]; by rewrite (IH (S tick) (S tick')).
Qed.

(** When every record has an id, no id occurs twice and the clock stands
    still, the report sent by [send_initial_status] is the report of the
    state it saves. *)
Theorem status_report_of_saved_state (devices : list raw_device) :
  Forall (fun dev => is_Some (dev !! "id")) devices ->
  NoDup (payload_ids devices) ->
  (forall i j, clock i = clock j) ->
  exists title built,
    send_initial_status (Some devices)
    = Some (title, formatReport built, join newline (formatReport built), Return built).
Proof.
  intros Hall Hnd Hclock. unfold send_initial_status, status_report.
  rewrite partition_devices_classify, build_distinct by done. cbn [app].
  eexists _, _. do 2 f_equal. unfold formatReport.
  by rewrite !(payload_entries_classify _ _ 0%nat).
Qed.
End ReportMore.

(** ** Notifications *)

(** Whatever the two maps, a notification of [check_devices] has one of
    five forms: a new device that is online or offline, a removed device, a
    device that went online or offline. *)
Theorem check_devices_notifications (current previous : snapshot) :
  Forall (fun n : string * string =>
            exists d,
              n = ("🆕 New Tailscale Device", d +:+ " is online")
              \/ n = ("🆕 New Tailscale Device", d +:+ " is offline")
              \/ n = ("🗑️ Tailscale Device Removed", d +:+ " was removed from the network")
              \/ n = ("🟢 Device Online", d +:+ " is now online")
              \/ n = ("🔴 Device Offline", d +:+ " is now offline"))
         (change_notification <$> detect_changes current previous).
Proof.
  rewrite <- detect_changes_erase, detect_changes_traced_spec. unfold spec_diff.
  rewrite !fmap_app. apply Forall_app.
  split; apply Forall_fmap, Forall_fmap, Forall_forall; intros p Hin;
    apply list_elem_of_omap in Hin as (item & _ & Hstep); cbn;
    exists (name item.2).
  - unfold spec_step1 in Hstep. destruct (PyDict.get item.1 previous).
    + case_bool_decide; [done |]. injection Hstep as <-.
      unfold change_notification. cbn. destruct (online item.2); cbn; auto 6.
    + injection Hstep as <-.
      unfold change_notification. cbn. destruct (online item.2); cbn; auto.
  - unfold spec_step2 in Hstep. case_bool_decide; [done |]. injection Hstep as <-.
    unfold change_notification. cbn. auto.
Qed.

(** The title of a notification tells the type of the change, and for a
    status change also the new status. *)
Theorem change_notification_title (c1 c2 : change) :
  (change_notification c1).1 = (change_notification c2).1 ->
  type c1 = type c2 /\ (type c1 = changed -> status c1 = status c2).
Proof.
  destruct c1 as [d1 s1 t1], c2 as [d2 s2 t2]. unfold change_notification. cbn.
  destruct t1, t2, s1, s2; cbn; intros Heq; try discriminate Heq; done.
Qed.

(** ** The driver *)

Section DriverMore.
Context `{Environment}.

(** A payload with a record without an id costs one pass of the loop: the
    only notification is the error report, whose body is the missing key in
    quotes, and the state file is left as it was. *)
Theorem monitoring_cycle_missing_id (devices : list raw_device) (file : state_file) :
  Exists (fun dev => dev !! "id" = None) devices ->
  monitoring_cycle (Some devices) file = ([("⚠️ Tailscale Monitor Error", "'id'")], file).
Proof.
  intros Hex. unfold monitoring_cycle, run_check_devices, check_devices.
  by rewrite build_Raise.
Qed.

Lemma monitoring_cycle_steady_aux (devices : list raw_device) (built : snapshot) :
  build_current_devices devices 0 [] = Return built ->
  monitoring_cycle (Some devices) (Stored built) = ([], Stored built).
Proof.
  intros Hb. unfold monitoring_cycle, run_check_devices, check_devices.
  rewrite Hb. cbn [load_previous_state save_current_state].
  pose proof (build_wf _ _ _ _ wf_nil Hb) as Hwf.
  rewrite <- detect_changes_erase, detect_changes_traced_spec.
  by rewrite spec_diff_no_change.
Qed.

(** A pass that builds the very map the state file holds sends nothing
    and stores that map again. *)
Theorem monitoring_cycle_steady (devices : list raw_device) (built : snapshot) :
  build_current_devices devices 0 [] = Return built ->
  monitoring_cycle (Some devices) (Stored built) = ([], Stored built).
Proof. apply monitoring_cycle_steady_aux. Qed.


Lemma monitoring_cycle_file_ok (data : option (list raw_device)) (file : state_file) :
  file_ok file -> file_ok (monitoring_cycle data file).2.
Proof.
  intros Hok. unfold monitoring_cycle, run_check_devices, check_devices.
  destruct data as [devices|]; [| done].
  destruct (build_current_devices devices 0 []) as [built|e] eqn:Hb; [| done].
  cbn. by apply (build_entries_ok devices 0%nat []); [apply wf_nil | constructor |].
Qed.
End DriverMore.

Lemma monitoring_loop_cons (E : Environment) (it : iteration) (rest : list iteration)
    (file : state_file) :
  monitoring_loop E (it :: rest) file
  = ((monitoring_cycle (H := with_clock E (readings it)) (fetched it) file).1
     ++ (monitoring_loop E rest
           (monitoring_cycle (H := with_clock E (readings it)) (fetched it) file).2).1,
     (monitoring_loop E rest
        (monitoring_cycle (H := with_clock E (readings it)) (fetched it) file).2).2)%list.
Proof.
  cbn [monitoring_loop].
  destruct (monitoring_cycle (H := with_clock E (readings it)) (fetched it) file)
    as [sent file'].
  cbn [fst snd]. by destruct (monitoring_loop E rest file') as [sent' file''].
Qed.

(** However many passes the loop makes and whatever it fetches, a state
    file that is well formed stays well formed: its keys are distinct and
    its entries without a heartbeat are offline. *)
Theorem monitoring_loop_invariant (E : Environment) (iterations : list iteration)
    (file : state_file) :
  file_ok file -> file_ok (monitoring_loop E iterations file).2.
Proof.
  revert file. induction iterations as [|it rest IH]; intros file Hok; [done |].
  rewrite monitoring_loop_cons. cbn [snd].
  by apply IH, (monitoring_cycle_file_ok (H := with_clock E (readings it))).
Qed.

(** A pass whose fetch fails leaves no trace: dropping such passes changes
    neither the notifications nor the state file. *)
Theorem monitoring_loop_failed_fetches (E : Environment) (iterations : list iteration)
    (file : state_file) :
  monitoring_loop E (filter (fun it => is_Some (fetched it)) iterations) file
  = monitoring_loop E iterations file.
Proof.
  revert file. induction iterations as [|it rest IH]; intros file; [done |].
  destruct (fetched it) as [devices|] eqn:Hf.
  - rewrite filter_cons_True by (by rewrite Hf). by rewrite !monitoring_loop_cons, IH.
  - rewrite filter_cons_False by (rewrite Hf; by intros [? ?]).
    rewrite IH, monitoring_loop_cons, Hf. cbn.
    by destruct (monitoring_loop E rest file).
Qed.






(** ** Witnesses of the further properties *)

Section MoreInstances.
Import Scenario.

Local Ltac dict_wf := unfold PyDict.wf, PyDict.keys; apply (bool_decide_unpack _); vm_compute; exact I.

Lemma detect_changes_per_id_witness :
  PyDict.wf current5 /\ PyDict.wf previous5
  /\ changes_of "C" (detect_changes_traced current5 previous5)
     = [ {| device := "C"; status := online_; type := new |} ].
Proof.
  assert (Hc : PyDict.wf current5) by dict_wf.
  assert (Hp : PyDict.wf previous5) by dict_wf.
  split; [exact Hc |]. split; [exact Hp |].
  rewrite (detect_changes_per_id current5 previous5 "C" Hc Hp). reflexivity.
Defined.

Lemma detect_changes_nil_iff_witness :
  PyDict.wf [("A", A_renamed)] /\ PyDict.wf [("A", A)]
  /\ detect_changes [("A", A_renamed)] [("A", A)] = [].
Proof.
  assert (Hc : PyDict.wf [("A", A_renamed)]) by dict_wf.
  assert (Hp : PyDict.wf [("A", A)]) by dict_wf.
  split; [exact Hc |]. split; [exact Hp |].
  apply (proj2 (detect_changes_nil_iff [("A", A_renamed)] [("A", A)] Hc Hp)).
  intros device_id. cbn [PyDict.get]. destruct (decide ("A" = device_id)); reflexivity.
Defined.

Lemma detect_changes_swap_witness :
  PyDict.wf current5 /\ PyDict.wf previous5
  /\ ((fun c => opposite (type c)) <$> changes_of "A" (detect_changes_traced current5 previous5)
      = type <$> changes_of "A" (detect_changes_traced previous5 current5)
      /\ Forall (fun c => type c = changed ->
                          Forall (fun c' => status c' <> status c)
                            (changes_of "A" (detect_changes_traced previous5 current5)))
                (changes_of "A" (detect_changes_traced current5 previous5))).
Proof.
  assert (Hc : PyDict.wf current5) by dict_wf.
  assert (Hp : PyDict.wf previous5) by dict_wf.
  split; [exact Hc |]. split; [exact Hp |].
  exact (detect_changes_swap current5 previous5 "A" Hc Hp).
Defined.

Lemma build_current_devices_key_order_witness :
  exists built,
    build_current_devices (H := env 0) [first_n1; valid; second_n1] 0 [] = Return built
    /\ PyDict.keys built = ["n1"; "n2"]
    /\ (length built <= 3)%nat.
Proof.
  eexists. split; [by vm_compute |].
  destruct (build_current_devices_key_order (H := env 0) [first_n1; valid; second_n1] 0%nat _
              eq_refl) as [Hkeys Hlen].
  split; [exact Hkeys | exact Hlen].
Defined.

Lemma build_current_devices_distinct_witness :
  Forall (fun dev : raw_device => is_Some (dev !! "id")) [bare; valid]
  /\ NoDup (payload_ids [bare; valid])
  /\ build_current_devices (H := env 0) [bare; valid] 0 []
     = Return (payload_entries (H := env 0) [bare; valid] 0).
Proof.
  assert (Hall : Forall (fun dev : raw_device => is_Some (dev !! "id")) [bare; valid])
    by (repeat constructor; eexists; reflexivity).
  assert (Hnd : NoDup (payload_ids [bare; valid]))
    by (apply (bool_decide_unpack _); vm_compute; exact I).
  split; [exact Hall |]. split; [exact Hnd |].
  exact (build_current_devices_distinct (H := env 0) [bare; valid] 0%nat Hall Hnd).
Defined.

Lemma build_current_devices_invariant_witness :
  exists built,
    build_current_devices (H := env 0) [bare; garbled; valid] 0 [] = Return built
    /\ PyDict.wf built /\ Forall (fun item => entry_ok item.2) built.
Proof.
  eexists. split; [by vm_compute |].
  exact (build_current_devices_invariant (H := env 0) [bare; garbled; valid] 0%nat _ eq_refl).
Defined.

Lemma is_device_online_sound_witness :
  is_device_online (H := env 0) 0 valid = true
  /\ exists last_seen t,
       valid !! "lastSeen" = Some last_seen /\ last_seen <> ""
       /\ fromisoformat (Environment := env 0) (replace "Z" "+00:00" last_seen)
          = Some (Aware t)
       /\ -999999999 <= ONLINE_THRESHOLD_SECONDS (Environment := env 0) / 86400 <= 999999999
       /\ 0 - t < ONLINE_THRESHOLD_SECONDS (Environment := env 0) * 1000000.
Proof.
  assert (Hon : is_device_online (H := env 0) 0 valid = true) by reflexivity.
  split; [exact Hon |].
  exact (is_device_online_sound (H := env 0) 0 valid Hon).
Defined.

Lemma is_device_online_earlier_witness :
  0 <= 100000000
  /\ is_device_online (H := env 0) 100000000 valid = true
  /\ is_device_online (H := env 0) 0 valid = true.
Proof.
  assert (Hle : 0 <= 100000000) by discriminate.
  assert (Hon : is_device_online (H := env 0) 100000000 valid = true) by reflexivity.
  split; [exact Hle |]. split; [exact Hon |].
  exact (is_device_online_earlier (H := env 0) 0 100000000 valid Hle Hon).
Defined.

Lemma is_device_online_no_window_witness :
  ONLINE_THRESHOLD_SECONDS (Environment := no_window) <= 0
  /\ valid !! "lastSeen" = Some "1970-01-01T00:01:00Z"
  /\ is_device_online (H := no_window) 60000000 valid = false.
Proof.
  assert (HT : ONLINE_THRESHOLD_SECONDS (Environment := no_window) <= 0) by discriminate.
  assert (Hseen : valid !! "lastSeen" = Some "1970-01-01T00:01:00Z") by reflexivity.
  split; [exact HT |]. split; [exact Hseen |].
  apply (is_device_online_no_window (H := no_window) 60000000 valid _ 60000000 HT Hseen).
  - reflexivity.
  - discriminate.
Defined.

Lemma is_device_online_naive_offline_witness :
  unzoned !! "lastSeen" = Some "1970-01-01T00:01:00"
  /\ fromisoformat (Environment := env 0) (replace "Z" "+00:00" "1970-01-01T00:01:00")
     = Some (Naive 60000000)
  /\ (is_device_online (H := env 0) 60000000 unzoned = false
      /\ is_device_online_try (H := env 0) 60000000 "1970-01-01T00:01:00" = Raise TypeError).
Proof.
  assert (Hseen : unzoned !! "lastSeen" = Some "1970-01-01T00:01:00") by reflexivity.
  assert (Hparse : fromisoformat (Environment := env 0)
                     (replace "Z" "+00:00" "1970-01-01T00:01:00")
                   = Some (Naive 60000000)) by reflexivity.
  split; [exact Hseen |]. split; [exact Hparse |].
  exact (is_device_online_naive_offline (H := env 0) 60000000 unzoned _ _ Hseen Hparse).
Defined.

Lemma status_report_lists_every_record_witness :
  no_id ∈ [no_id; valid]
  /\ "  • " +:+ device_name no_id ∈ (status_report (H := env 0) [no_id; valid]).2.
Proof.
  assert (Hin : no_id ∈ [no_id; valid]) by apply list_elem_of_here.
  split; [exact Hin |].
  exact (status_report_lists_every_record (H := env 0) [no_id; valid] no_id Hin).
Defined.

Lemma status_report_order_independent_witness :
  (forall i j : nat, clock (Environment := env 0) i = clock (Environment := env 0) j)
  /\ [no_id; valid] ≡ₚ [valid; no_id]
  /\ status_report (H := env 0) [no_id; valid] = status_report (H := env 0) [valid; no_id].
Proof.
  assert (Hclock : forall i j : nat,
             clock (Environment := env 0) i = clock (Environment := env 0) j)
    by (intros i j; reflexivity).
  assert (Hperm : [no_id; valid] ≡ₚ [valid; no_id]) by apply perm_swap.
  split; [exact Hclock |]. split; [exact Hperm |].
  exact (status_report_order_independent (H := env 0) _ _ Hclock Hperm).
Defined.

Lemma status_report_of_saved_state_witness :
  Forall (fun dev : raw_device => is_Some (dev !! "id")) [bare; valid]
  /\ NoDup (payload_ids [bare; valid])
  /\ exists title built,
       send_initial_status (H := env 0) (Some [bare; valid])
       = Some (title, formatReport (H := env 0) built,
               join newline (formatReport (H := env 0) built), Return built).
Proof.
  assert (Hall : Forall (fun dev : raw_device => is_Some (dev !! "id")) [bare; valid])
    by (repeat constructor; eexists; reflexivity).
  assert (Hnd : NoDup (payload_ids [bare; valid]))
    by (apply (bool_decide_unpack _); vm_compute; exact I).
  split; [exact Hall |]. split; [exact Hnd |].
  apply (status_report_of_saved_state (H := env 0) [bare; valid] Hall Hnd).
  intros i j. reflexivity.
Defined.

Lemma change_notification_title_witness :
  (change_notification {| device := "a"; status := offline_; type := changed |}).1
  = (change_notification {| device := "b"; status := offline_; type := changed |}).1
  /\ (changed = changed /\ (changed = changed -> offline_ = offline_)).
Proof.
  split; [reflexivity |].
  exact (change_notification_title {| device := "a"; status := offline_; type := changed |}
           {| device := "b"; status := offline_; type := changed |} eq_refl).
Defined.

Lemma monitoring_cycle_missing_id_witness :
  Exists (fun dev : raw_device => dev !! "id" = None) [valid; no_id]
  /\ monitoring_cycle (H := env 0) (Some [valid; no_id]) (Stored previous5)
     = ([("⚠️ Tailscale Monitor Error", "'id'")], Stored previous5).
Proof.
  assert (Hex : Exists (fun dev : raw_device => dev !! "id" = None) [valid; no_id])
    by (apply Exists_cons_tl, Exists_cons_hd; reflexivity).
  split; [exact Hex |].
  exact (monitoring_cycle_missing_id (H := env 0) [valid; no_id] (Stored previous5) Hex).
Defined.

Lemma monitoring_cycle_steady_witness :
  exists built,
    build_current_devices (H := env 0) [valid; bare] 0 [] = Return built
    /\ monitoring_cycle (H := env 0) (Some [valid; bare]) (Stored built) = ([], Stored built).
Proof.
  eexists. split; [by vm_compute |].
  exact (monitoring_cycle_steady (H := env 0) [valid; bare] _ eq_refl).
Defined.

Lemma monitoring_loop_invariant_witness :
  file_ok Missing
  /\ file_ok (monitoring_loop (env 0) [pass_valid; pass_no_id; pass_failed] Missing).2.
Proof.
  assert (Hok : file_ok Missing) by exact I.
  split; [exact Hok |].
  exact (monitoring_loop_invariant (env 0) [pass_valid; pass_no_id; pass_failed] Missing Hok).
Defined.




End MoreInstances.
